(** * Examples.ipynb: the quantity predictor and its execution variants

    A shallow embedding of the array kernel of the notebook
    [Examples.ipynb] and of the three ways the notebook runs it:

    - [predict_over_time]: NumPy array arithmetic, one column per time step;
    - [jitted_func]: the same body under [numba.jit];
    - [fast_predict_over_time]: a scalar kernel driven by a generalized
      ufunc ([numba.guvectorize], layout [(),(),(),(),(s)->(s)]);
    - [delayed] / [compute]: [dask.delayed] wrappers around the two.

    Data is modelled as the notebook has it.  [x] is an [int64] array (the
    notebook draws it with [np.random.poisson], the ufunc signature says
    [i8]), [y] and [z] are [float64] ([f8]).  [int64] values are integers of
    [Z] with the wrap-around written out, [float64] values are the
    primitive binary64 floats.  Arrays are views (base buffer, offset,
    stride, length) into a store of buffers, so that two arguments may
    share storage, as [y] and [z] do in the notebook, where both are
    columns of one [(n, 2)] array. *)

From Stdlib Require Import ZArith Bool Floats.
From stdpp Require Import base option list gmap.

Open Scope Z_scope.

(** ** Scalars *)

(** [int64] arithmetic wraps modulo [2^64] into [-2^63 .. 2^63 - 1]. *)
Definition wrap64 (z : Z) : Z := (z + 2 ^ 63) mod 2 ^ 64 - 2 ^ 63.

(** Conversion of an integer to [float64], rounding to nearest even. *)
Definition float_of_Z (z : Z) : float :=
  SF2Prim (binary_normalize prec emax z 0 false).

#[global] Instance float_inhabited : Inhabited float := populate 0%float.

(** ** The store of buffers *)

Definition loc := positive.

Inductive buffer :=
  | IntBuf (d : list Z)
  | FloatBuf (d : list float).

Abbreviation store := (gmap loc buffer).

(** [ValueError]: NumPy could not broadcast its operands.  [Fault]: a
    descriptor does not denote an array of the store with the element type
    the model expects; no Python object does that. *)
Inductive exn := ValueError | Fault.

Inductive outcome (A : Type) :=
  | Ok (a : A) (s : store)
  | Raise (e : exn) (s : store).
Arguments Ok {A} a s.
Arguments Raise {A} e s.

(** Computations that read and write the store and may raise. *)
Definition M (A : Type) : Type := store → outcome A.

Definition ret {A} (a : A) : M A := λ s, Ok a s.

Definition raise {A} (e : exn) : M A := λ s, Raise e s.

Definition bind {A B} (m : M A) (k : A → M B) : M B :=
  λ s, match m s with
       | Ok a s' => k a s'
       | Raise e s' => Raise e s'
       end.

Notation "x <- m ;; k" := (bind m (λ x, k))
  (at level 100, m at next level, right associativity).
Notation "m ;;; k" := (bind m (λ _, k))
  (at level 100, right associativity).

Definition lift {A} (r : exn + A) : M A :=
  match r with
  | inl e => raise e
  | inr a => ret a
  end.

(** [for a in l: body a] *)
Fixpoint for_each {A} (l : list A) (body : A → M unit) : M unit :=
  match l with
  | [] => ret tt
  | a :: l' => body a ;;; for_each l' body
  end.

(** [range(n)] *)
Definition range (n : nat) : list nat := seq 0 n.

(** A fresh buffer; its location is new to the store. *)
Definition alloc (b : buffer) : M loc :=
  λ s, let l := fresh (dom s) in Ok l (<[l := b]> s).

(** ** Array descriptors *)

(** A one-dimensional strided view. *)
Record view := View {
  vbase : loc;
  voffset : Z;
  vstride : Z;
  vlen : nat
}.

(** A C-contiguous two-dimensional [float64] array owning its buffer. *)
Record matrix := Matrix {
  mbase : loc;
  mrows : nat;
  mcols : nat
}.

(** [y] and [z] are arrays or plain Python floats. *)
Inductive operand :=
  | PyFloat (f : float)
  | NdArray (v : view).

(** A [float64] temporary of an array expression: 0-d or 1-d. *)
Inductive ndvalue :=
  | Scalar0 (f : float)
  | Vec1 (d : list float).

Definition lookupZ {A} (d : list A) (i : Z) : option A :=
  if (i <? 0)%Z then None else d !! Z.to_nat i.

Definition view_index (v : view) (i : nat) : Z :=
  voffset v + Z.of_nat i * vstride v.

(** The elements a view selects from a buffer, in order. *)
Definition gather {A} (d : list A) (v : view) : option (list A) :=
  mapM (λ i, lookupZ d (view_index v i)) (seq 0 (vlen v)).

(** What a view denotes in a store, when it denotes an array at all. *)
Definition ints_of (s : store) (v : view) : option (list Z) :=
  match s !! vbase v with
  | Some (IntBuf d) => gather d v
  | _ => None
  end.

Definition floats_of (s : store) (v : view) : option (list float) :=
  match s !! vbase v with
  | Some (FloatBuf d) => gather d v
  | _ => None
  end.

Definition read_ints (v : view) : M (list Z) :=
  λ s, match ints_of s v with
       | Some xs => Ok xs s
       | None => Raise Fault s
       end.

Definition read_floats (v : view) : M (list float) :=
  λ s, match floats_of s v with
       | Some xs => Ok xs s
       | None => Raise Fault s
       end.

Definition read_operand (o : operand) : M ndvalue :=
  match o with
  | PyFloat f => ret (Scalar0 f)
  | NdArray v => d <- read_floats v ;; ret (Vec1 d)
  end.

(** ** NumPy array arithmetic *)

(** Element-wise binary operation with broadcasting of 0-d and 1-d
    operands: equal lengths pair up, a length-1 operand is stretched,
    anything else is a [ValueError]. *)
Definition broadcast2 (op : float → float → float) (a b : ndvalue)
  : exn + ndvalue :=
  match a, b with
  | Scalar0 u, Scalar0 v => inr (Scalar0 (op u v))
  | Scalar0 u, Vec1 q => inr (Vec1 (op u <$> q))
  | Vec1 p, Scalar0 v => inr (Vec1 ((λ u, op u v) <$> p))
  | Vec1 p, Vec1 q =>
      if (length p =? length q)%nat then inr (Vec1 (zip_with op p q))
      else match p, q with
           | [u], _ => inr (Vec1 (op u <$> q))
           | _, [v] => inr (Vec1 ((λ u, op u v) <$> p))
           | _, _ => inl ValueError
           end
  end.

(** [x ** 2] on an [int64] array. *)
Definition np_square (xs : list Z) : list Z := (λ v, wrap64 (v * v)) <$> xs.

(** [t * a] for a Python int [t] and an [int64] array [a]. *)
Definition np_scale_int (t : Z) (a : list Z) : list Z :=
  (λ v, wrap64 (t * v)) <$> a.

(** An [int64] array promoted to [float64]. *)
Definition np_as_float (a : list Z) : ndvalue := Vec1 (float_of_Z <$> a).

(** [c * a] for a Python number [c] and a [float64] operand [a]. *)
Definition np_scale (c : float) (a : ndvalue) : ndvalue :=
  match a with
  | Scalar0 v => Scalar0 (c * v)
  | Vec1 d => Vec1 ((λ v, c * v)%float <$> d)
  end.

(** [a - c] for a [float64] operand [a] and a Python number [c]. *)
Definition np_sub_scalar (a : ndvalue) (c : float) : ndvalue :=
  match a with
  | Scalar0 v => Scalar0 (v - c)
  | Vec1 d => Vec1 ((λ v, v - c)%float <$> d)
  end.

(** The right-hand side [t * x ** 2 + y - 2 * z - 2 * t]. *)
Definition rhs_expr (t : Z) (xs : list Z) (yv zv : ndvalue) : exn + ndvalue :=
  match broadcast2 PrimFloat.add (np_as_float (np_scale_int t (np_square xs))) yv with
  | inl e => inl e
  | inr a =>
      match broadcast2 PrimFloat.sub a (np_scale 2 zv) with
      | inl e => inl e
      | inr b => inr (np_sub_scalar b (float_of_Z (2 * t)))
      end
  end.

(** The values assigned to a slice of length [n]: the value itself, or a
    0-d or length-1 value repeated. *)
Definition broadcast_to (n : nat) (a : ndvalue) : option (list float) :=
  match a with
  | Scalar0 v => Some (replicate n v)
  | Vec1 d =>
      if (length d =? n)%nat then Some d
      else match d with
           | [v] => Some (replicate n v)
           | _ => None
           end
  end.

(** Stores [col] down column [t] of a row-major buffer with [cols]
    columns, from row [i] on. *)
Fixpoint set_column_from (cols t i : nat) (col : list float) (d : list float)
  : list float :=
  match col with
  | [] => d
  | v :: col' => set_column_from cols t (S i) col' (<[(i * cols + t)%nat := v]> d)
  end.

Definition set_column (cols t : nat) (col d : list float) : list float :=
  set_column_from cols t 0 col d.

(** [np.zeros((rows, cols))] *)
Definition np_zeros (rows cols : nat) : M matrix :=
  l <- alloc (FloatBuf (replicate (rows * cols) 0%float)) ;;
  ret (Matrix l rows cols).

(** [out[:, t] = a] *)
Definition assign_column (out : matrix) (t : nat) (a : ndvalue) : M unit :=
  λ s, match s !! mbase out with
       | Some (FloatBuf d) =>
           match broadcast_to (mrows out) a with
           | Some col =>
               Ok tt (<[mbase out := FloatBuf (set_column (mcols out) t col d)]> s)
           | None => Raise ValueError s
           end
       | _ => Raise Fault s
       end.

(** [adj * out]: a new array; [out] itself is left as it is. *)
Definition scalar_mul (adj : float) (out : matrix) : M matrix :=
  λ s, match s !! mbase out with
       | Some (FloatBuf d) =>
           (l <- alloc (FloatBuf ((λ v, adj * v)%float <$> d)) ;;
            ret (Matrix l (mrows out) (mcols out))) s
       | _ => Raise Fault s
       end.

(** ** The notebook's functions *)

(** <<
def predict_over_time(x, y, z, overlay=False):
    out = np.zeros((x.shape[0], 15))
    for t in range(15):
        out[:, t] = t * x ** 2 + y - 2 * z - 2 * t
    adj = 1.5 if overlay else 1.0
    return adj * out
>>
    [predict_body] is the body of the loop: the operands are read from
    the store at every time step. *)
Definition predict_body (x : view) (y z : operand) (out : matrix) (t : nat)
  : M unit :=
  xs <- read_ints x ;;
  yv <- read_operand y ;;
  zv <- read_operand z ;;
  rhs <- lift (rhs_expr (Z.of_nat t) xs yv zv) ;;
  assign_column out t rhs.

Definition predict_over_time (x : view) (y z : operand) (overlay : bool)
  : M matrix :=
  out <- np_zeros (vlen x) 15 ;;
  for_each (range 15) (predict_body x y z out) ;;;
  let adj := (if overlay then 1.5 else 1.0)%float in
  scalar_mul adj out.

(** [numba.jit] compiles a function on its first call and otherwise
    leaves it as it is: the decorated function computes what the Python
    function computes. *)
Definition jit {F : Type} (f : F) : F := f.

(** <<
@jit
def jitted_func(x, y, z, overlay=False):
    out = np.zeros((x.shape[0], 15))
    for t in range(15):
        out[:, t] = t * x ** 2 + y - 2 * z - 2 * t
    adj = 1.5 if overlay else 1.0
    return adj * out
>> *)
Definition jitted_func : view → operand → operand → bool → M matrix :=
  jit (λ (x : view) (y z : operand) (overlay : bool),
    out <- np_zeros (vlen x) 15 ;;
    for_each (range 15) (λ t,
      xs <- read_ints x ;;
      yv <- read_operand y ;;
      zv <- read_operand z ;;
      rhs <- lift (rhs_expr (Z.of_nat t) xs yv zv) ;;
      assign_column out t rhs) ;;;
    let adj := (if overlay then 1.5 else 1.0)%float in
    scalar_mul adj out).

(** ** The generalized ufunc *)

(** [out[t] = v] through a view. *)
Definition setitem (out : view) (t : nat) (v : float) : M unit :=
  λ s, match s !! vbase out with
       | Some (FloatBuf d) =>
           let j := view_index out t in
           if (0 <=? j) && (j <? Z.of_nat (length d))
           then Ok tt (<[vbase out := FloatBuf (<[Z.to_nat j := v]> d)]> s)
           else Raise Fault s
       | _ => Raise Fault s
       end.

(** The value the kernel stores at time step [t]; [t] and [x] are
    [int64], [y] and [z] are [float64]:
    [adj * (t * x ** 2 + y - 2 * z - 2 * t)]. *)
Definition kernel_value (adj : float) (t : Z) (x : Z) (y z : float) : float :=
  (adj * (float_of_Z (wrap64 (t * wrap64 (x * x))) + y - 2 * z
          - float_of_Z (wrap64 (2 * t))))%float.

(** <<
def fast_predict_over_time(x, y, z, overlay, _, out):
    adj = 1.5 if overlay else 1.0
    for t in range(len(out)):
        out[t] = adj * (t * x ** 2 + y - 2 * z - 2 * t)
>> *)
Definition kernel (x : Z) (y z : float) (overlay : bool) (_dummy out : view)
  : M unit :=
  let adj := (if overlay then 1.5 else 1.0)%float in
  for_each (range (vlen out)) (λ t,
    setitem out t (kernel_value adj (Z.of_nat t) x y z)).

(** The fifth argument: a [float64] array with one or two dimensions. *)
Inductive farray :=
  | Arr1 (v : view)
  | Arr2 (m : matrix).

(** Loop dimension of an argument ([None]: it has none) and the core
    dimension [s] of the fifth one. *)
Definition operand_dim (o : operand) : option nat :=
  match o with
  | PyFloat _ => None
  | NdArray v => Some (vlen v)
  end.

Definition farray_dim (a : farray) : option nat :=
  match a with
  | Arr1 _ => None
  | Arr2 m => Some (mrows m)
  end.

Definition core_dim (a : farray) : nat :=
  match a with
  | Arr1 v => vlen v
  | Arr2 m => mcols m
  end.

Definition broadcast_dim (a b : option nat) : exn + option nat :=
  match a, b with
  | None, d => inr d
  | d, None => inr d
  | Some n, Some m =>
      if (n =? m)%nat then inr (Some n)
      else if (n =? 1)%nat then inr (Some m)
      else if (m =? 1)%nat then inr (Some n)
      else inl ValueError
  end.

Definition broadcast_dims (ds : list (option nat)) : exn + option nat :=
  foldl (λ acc d, match acc with
                  | inl e => inl e
                  | inr a => broadcast_dim a d
                  end) (inr None) ds.

(** Index into an argument of loop length [len] at loop step [i]: a
    length-1 argument is read at 0 throughout. *)
Definition bindex (len i : nat) : nat := if (len =? 1)%nat then 0%nat else i.

Definition getitem_int (v : view) (i : nat) : M Z :=
  λ s, match s !! vbase v with
       | Some (IntBuf d) =>
           match lookupZ d (view_index v i) with
           | Some a => Ok a s
           | None => Raise Fault s
           end
       | _ => Raise Fault s
       end.

Definition getitem_float (v : view) (i : nat) : M float :=
  λ s, match s !! vbase v with
       | Some (FloatBuf d) =>
           match lookupZ d (view_index v i) with
           | Some a => Ok a s
           | None => Raise Fault s
           end
       | _ => Raise Fault s
       end.

Definition operand_item (o : operand) (i : nat) : M float :=
  match o with
  | PyFloat f => ret f
  | NdArray v => getitem_float v (bindex (vlen v) i)
  end.

Definition farray_row (a : farray) (i : nat) : view :=
  match a with
  | Arr1 v => v
  | Arr2 m =>
      View (mbase m) (Z.of_nat (bindex (mrows m) i * mcols m)) 1 (mcols m)
  end.

Definition matrix_row (m : matrix) (i : nat) : view :=
  View (mbase m) (Z.of_nat (i * mcols m)) 1 (mcols m).

(** One step of the loop of the ufunc: the scalars and the rows of step
    [i] are handed to the kernel. *)
Definition fast_row (x : view) (y z : operand) (overlay : bool) (res : farray)
    (out : matrix) (i : nat) : M unit :=
  xi <- getitem_int x (bindex (vlen x) i) ;;
  yi <- operand_item y i ;;
  zi <- operand_item z i ;;
  kernel xi yi zi overlay (farray_row res i) (matrix_row out i).

Section Gufunc.

(** What a newly allocated, uninitialised buffer at a location holds. *)
Variable uninit : loc → nat → float.

(** [np.empty((rows, cols))] *)
Definition np_empty (rows cols : nat) : M matrix :=
  λ s, let l := fresh (dom s) in
       Ok (Matrix l rows cols)
          (<[l := FloatBuf (uninit l <$> seq 0 (rows * cols))]> s).

(** <<
@guvectorize('i8, f8, f8, b1, f8[:], f8[:]', '(), (), (), (), (s) -> (s)')
def fast_predict_over_time(x, y, z, overlay, _, out): ...
>>
    A call [fast_predict_over_time(x, y, z, overlay, res)]: the loop
    dimensions of the arguments are broadcast, the output is allocated
    with the loop shape followed by the core dimension, and the kernel
    runs once per loop step on the scalars and rows of that step. *)
Definition fast_predict_over_time (x : view) (y z : operand) (overlay : bool)
    (res : farray) : M matrix :=
  shape <- lift (broadcast_dims
                   [Some (vlen x); operand_dim y; operand_dim z; None;
                    farray_dim res]) ;;
  let n := default 1%nat shape in
  out <- np_empty n (core_dim res) ;;
  for_each (range n) (fast_row x y z overlay res out) ;;;
  ret out.

End Gufunc.

(** ** Deferred evaluation *)

(** A [dask.delayed] call: a description of a computation; nothing runs
    until [compute]. *)
Record Delayed (A : Type) := MkDelayed { task : M A }.
Arguments MkDelayed {A} task.
Arguments task {A} d.

(** [delayed(f)] for a function of three and of five arguments. *)
Definition delayed3 {A B C R} (f : A → B → C → M R) : A → B → C → Delayed R :=
  λ a b c, MkDelayed (f a b c).

Definition delayed5 {A B C D E R} (f : A → B → C → D → E → M R)
  : A → B → C → D → E → Delayed R :=
  λ a b c d e, MkDelayed (f a b c d e).

(** [d.compute()] *)
Definition compute {A} (d : Delayed A) : M A := task d.

(** [fast_predict_over_time = delayed(fast_predict_over_time)] *)
Definition delayed_fast_predict_over_time (uninit : loc → nat → float)
  : view → operand → operand → bool → farray → Delayed matrix :=
  delayed5 (fast_predict_over_time uninit).

(** [fast_jitted_func = delayed(jitted_func)], called as
    [fast_jitted_func(x, y, z)], with [overlay] at its default. *)
Definition fast_jitted_func : view → operand → operand → Delayed matrix :=
  delayed3 (λ x y z, jitted_func x y z false).

(** ** What a caller sees of a call *)

Inductive observed :=
  | Returned (rows cols : nat) (data : list float)
  | Raised (e : exn).

Definition observe (o : outcome matrix) : observed :=
  match o with
  | Ok m s =>
      match s !! mbase m with
      | Some (FloatBuf d) => Returned (mrows m) (mcols m) d
      | _ => Raised Fault
      end
  | Raise e _ => Raised e
  end.

(** [m[i][t]] in a store. *)
Definition getitem2 (s : store) (m : matrix) (i t : nat) : option float :=
  match s !! mbase m with
  | Some (FloatBuf d) =>
      if (i <? mrows m)%nat && (t <? mcols m)%nat
      then d !! (i * mcols m + t)%nat
      else None
  | _ => None
  end.

(** The entry the specification gives for element [i] and time step [t]:
    [adj * (t * x[i]**2 + y[i] - 2*z[i] - 2*t)] with [adj] 1.5 under
    overlay and 1.0 otherwise, in NumPy scalar arithmetic. *)
Definition spec_adj (overlay : bool) : float :=
  if overlay then 1.5%float else 1%float.

Definition spec_value (t : Z) (xi : Z) (yi zi : float) : float :=
  (float_of_Z (wrap64 (t * wrap64 (xi ^ 2))) + yi - 2 * zi - float_of_Z (2 * t))%float.

Definition spec_entry (overlay : bool) (t : Z) (xi : Z) (yi zi : float) : float :=
  (spec_adj overlay * spec_value t xi yi zi)%float.

(** ** Contents, and the functions of the contents the calls compute *)

Definition operand_value (s : store) (o : operand) : option ndvalue :=
  match o with
  | PyFloat f => Some (Scalar0 f)
  | NdArray v => Vec1 <$> floats_of s v
  end.

(** An operand fits a loop of length [n]: 0-d, length 1 or length [n]. *)
Definition fits (n : nat) (a : ndvalue) : bool :=
  match a with
  | Scalar0 _ => true
  | Vec1 d => (length d =? n)%nat || (length d =? 1)%nat
  end.

(** Element [i] of an operand under broadcasting. *)
Definition nd_get (a : ndvalue) (i : nat) : float :=
  match a with
  | Scalar0 v => v
  | Vec1 [v] => v
  | Vec1 d => d !!! i
  end.

(** Row-major data of the [rows] by [cols] matrix with entries [f i t]:
    position [j] holds row [j / cols], column [j mod cols]. *)
Definition matrix_data (rows cols : nat) (f : nat → nat → float) : list float :=
  (λ j, f (j / cols)%nat (j mod cols)%nat) <$> seq 0 (rows * cols).

(** Column [t] as the loop body assigns it. *)
Definition column (n t : nat) (xs : list Z) (yv zv : ndvalue) : exn + list float :=
  match rhs_expr (Z.of_nat t) xs yv zv with
  | inl e => inl e
  | inr a =>
      match broadcast_to n a with
      | Some c => inr c
      | None => inl ValueError
      end
  end.

(** The loop over the time steps [ts] on the data [d] of [out]; on an
    error, the data the loop leaves behind. *)
Fixpoint fill_columns (cols : nat) (col : nat → exn + list float)
    (ts : list nat) (d : list float) : exn * list float + list float :=
  match ts with
  | [] => inr d
  | t :: ts' =>
      match col t with
      | inl e => inl (e, d)
      | inr c => fill_columns cols col ts' (set_column cols t c d)
      end
  end.

(** What [predict_over_time] shows its caller, from the contents of its
    arguments alone. *)
Definition predict_model (xs : list Z) (yv zv : ndvalue) (overlay : bool)
  : observed :=
  let n := length xs in
  match fill_columns 15 (λ t, column n t xs yv zv) (range 15)
          (replicate (n * 15) 0%float) with
  | inl (e, _) => Raised e
  | inr d =>
      Returned n 15 ((λ v, (if overlay then 1.5 else 1.0) * v)%float <$> d)
  end.

(** The entries of the result when [y] and [z] are broadcast against [x]. *)
Definition model_entry (xs : list Z) (yv zv : ndvalue) (overlay : bool)
    (i t : nat) : float :=
  spec_entry overlay (Z.of_nat t) (xs !!! i) (nd_get yv i) (nd_get zv i).

(** The loop dimension of a value. *)
Definition nd_dim (a : ndvalue) : option nat :=
  match a with
  | Scalar0 _ => None
  | Vec1 d => Some (length d)
  end.

(** The entries the generalized ufunc computes, and what a call shows its
    caller, from the contents of [x], [y], [z] and the shape of the fifth
    argument alone. *)
Definition fast_entry (xs : list Z) (yv zv : ndvalue) (overlay : bool)
    (i t : nat) : float :=
  kernel_value (if overlay then 1.5 else 1.0)%float (Z.of_nat t)
    (xs !!! bindex (length xs) i) (nd_get yv i) (nd_get zv i).

Definition fast_model (xs : list Z) (yv zv : ndvalue) (overlay : bool)
    (rdim : option nat) (cols : nat) : observed :=
  match broadcast_dims [Some (length xs); nd_dim yv; nd_dim zv; None; rdim] with
  | inl e => Raised e
  | inr shape =>
      let n := default 1%nat shape in
      Returned n cols (matrix_data n cols (fast_entry xs yv zv overlay))
  end.

(** A dimension fits a loop of length [n]. *)
Definition dim_fits (n : nat) (d : option nat) : Prop :=
  d = None ∨ d = Some n ∨ d = Some 1%nat.

(** The buffer the fifth argument lives in. *)
Definition farray_base (a : farray) : loc :=
  match a with
  | Arr1 v => vbase v
  | Arr2 m => mbase m
  end.

(** Every buffer of [s] is in [s'], with the contents it has in [s]. *)
Definition preserves (s s' : store) : Prop :=
  ∀ l b, s !! l = Some b → s' !! l = Some b.

(** ** The notebook's set-up, at size two

    [x] is an [int64] array of its own; [y] and [z] are the two columns
    of one [(2, 2)] array ([y, z = np.random.normal(size=(n, 2)).T]);
    [res] is [np.zeros((2, 15))]. *)
Definition nb_store : store :=
  <[1%positive := IntBuf [2; 3]]>
    (<[2%positive := FloatBuf [1; 0.5; -1.5; 2]%float]>
       (<[3%positive := FloatBuf (replicate 30 0%float)]> ∅)).

Definition nb_x : view := View 1%positive 0 1 2.
Definition nb_y : view := View 2%positive 0 2 2.
Definition nb_z : view := View 2%positive 1 2 2.
Definition nb_res : farray := Arr2 (Matrix 3%positive 2 15).

(** The worked example of the specification: [x = [2]], [y = [1.0]],
    [z = [0.5]]. *)
Definition ex_store : store :=
  <[1%positive := IntBuf [2]]>
    (<[2%positive := FloatBuf [1]%float]>
       (<[3%positive := FloatBuf [0.5]%float]> ∅)).

Definition ex_x : view := View 1%positive 0 1 1.
Definition ex_y : view := View 2%positive 0 1 1.
Definition ex_z : view := View 3%positive 0 1 1.

Definition ex_row : list float :=
  [0; 2; 4; 6; 8; 10; 12; 14; 16; 18; 20; 22; 24; 26; 28]%float.

(** The same three arrays laid out differently: [x] inside a longer
    buffer, [y] contiguous, [z] stored backwards and read with stride
    [-1]. *)
Definition alt_store : store :=
  <[5%positive := IntBuf [9; 2; 3]]>
    (<[6%positive := FloatBuf [1; -1.5]%float]>
       (<[7%positive := FloatBuf [2; 0.5]%float]> ∅)).

Definition alt_x : view := View 5%positive 1 1 2.
Definition alt_y : view := View 6%positive 0 1 2.
Definition alt_z : view := View 7%positive 1 (-1) 2.

(** The notebook's store with other numbers in the buffer of [res]. *)
Definition nb_store_dirty : store :=
  <[3%positive := FloatBuf (replicate 30 7.5%float)]> nb_store.

(** A [y] of length three next to the [x] of length two. *)
Definition long_store : store :=
  <[1%positive := IntBuf [2; 3]]>
    (<[2%positive := FloatBuf [1; 0.5; 7]%float]> ∅).

Definition long_y : view := View 2%positive 0 1 3.

(** A [y] of length one. *)
Definition short_y : view := View 2%positive 0 1 1.

(** ** The input cell

    [y, z = np.random.normal(size=(n, 2)).T]: the transpose of a
    C-contiguous array is a view of the same buffer, and unpacking it
    takes its rows, the columns of the array. *)

(** The rows of [a.T]: row [j] starts at element [j] and steps by the
    number of columns of [a]. *)
Definition transpose_rows (a : matrix) : list view :=
  (λ j, View (mbase a) (Z.of_nat j) (Z.of_nat (mcols a)) (mrows a))
    <$> seq 0 (mcols a).

(** [y, z = rows]: exactly two, or a [ValueError]. *)
Definition unpack2 {A} (rows : list A) : exn + A * A :=
  match rows with
  | [a; b] => inr (a, b)
  | _ => inl ValueError
  end.

(** Views of length one into the notebook's store: [x = [2]],
    [y = [1.0]], [z = [0.5]]. *)
Definition one_x : view := View 1%positive 0 1 1.
Definition one_y : view := View 2%positive 0 1 1.
Definition one_z : view := View 2%positive 1 1 1.

(** * Properties *)

(** ** Multiplication by one is exact *)

Lemma Prim2SF_one : Prim2SF 1%float = S754_finite false 4503599627370496 (-52).
Proof. vm_compute. reflexivity. Qed.

Lemma digits2_pos_shift52 (m : positive) :
  Z.pos (digits2_pos (4503599627370496 * m)) = Z.pos (digits2_pos m) + 52.
Proof. cbv [Pos.mul]. cbn [digits2_pos]. lia. Qed.

Lemma shr_52_exact (m : positive) :
  SpecFloat.iter_pos shr_1 52
    {| shr_m := Z.pos (4503599627370496 * m); shr_r := false; shr_s := false |}
  = {| shr_m := Z.pos m; shr_r := false; shr_s := false |}.
Proof. cbv [Pos.mul]. cbn. reflexivity. Qed.

Lemma SF64mul_one_l (v : spec_float) :
  valid_binary v = true →
  SF64mul (S754_finite false 4503599627370496 (-52)) v = v.
Proof.
  destruct v as [sg|sg| |sg m e]; intros Hv; try reflexivity.
  cbn [SpecFloat.valid_binary] in Hv.
  unfold bounded, canonical_mantissa in Hv.
  apply andb_true_iff in Hv as [Hc Hb].
  apply Z.eqb_eq in Hc.
  unfold SF64mul, SFmul, binary_round_aux, shr_fexp.
  cbn [Zdigits2 shr_record_of_loc].
  rewrite digits2_pos_shift52.
  replace (Z.pos (digits2_pos m) + 52 + (-52 + e))
    with (Z.pos (digits2_pos m) + e) by lia.
  rewrite Hc.
  replace (e - (-52 + e)) with 52 by lia.
  unfold shr at 1. rewrite shr_52_exact.
  cbn [shr_m loc_of_shr_record round_nearest_even Zdigits2 shr_record_of_loc].
  replace (-52 + e + 52) with e by lia.
  rewrite Hc, Z.sub_diag. cbn [shr shr_m].
  rewrite Hb. reflexivity.
Qed.

Lemma mul_one_l (v : float) : (1 * v)%float = v.
Proof.
  apply Prim2SF_inj. rewrite mul_spec, Prim2SF_one.
  apply SF64mul_one_l, Prim2SF_valid.
Qed.

(** ** [int64] values in range do not wrap *)

Lemma wrap64_small (z : Z) : - 2 ^ 63 ≤ z < 2 ^ 63 → wrap64 z = z.
Proof.
  unfold wrap64. intros Hz.
  rewrite Z.mod_small; lia.
Qed.

(** Where [t * x ** 2] stays within [int64], the specification's value is
    the formula over the integers, rounded once per operation. *)
Lemma spec_value_no_wrap (t xi : Z) (yi zi : float) :
  - 2 ^ 63 ≤ xi ^ 2 < 2 ^ 63 →
  - 2 ^ 63 ≤ t * xi ^ 2 < 2 ^ 63 →
  spec_value t xi yi zi
  = (float_of_Z (t * xi ^ 2) + yi - 2 * zi - float_of_Z (2 * t))%float.
Proof.
  intros Hsq Hprod. unfold spec_value.
  by rewrite (wrap64_small (xi ^ 2)), (wrap64_small (t * xi ^ 2)).
Qed.

Lemma kernel_value_spec_entry (overlay : bool) (t xi : Z) (yi zi : float) :
  0 ≤ t < 2 ^ 62 →
  kernel_value (spec_adj overlay) t xi yi zi = spec_entry overlay t xi yi zi.
Proof.
  intros Ht. unfold kernel_value, spec_entry, spec_value.
  rewrite (wrap64_small (2 * t)) by lia.
  by rewrite Z.pow_2_r.
Qed.

(** ** Reading through views *)

Lemma gather_length {A} (d : list A) (v : view) (l : list A) :
  gather d v = Some l → length l = vlen v.
Proof.
  intros H. apply length_mapM in H. by rewrite length_seq in H.
Qed.

Lemma gather_lookup {A} (d : list A) (v : view) (l : list A) (i : nat) (a : A) :
  gather d v = Some l → l !! i = Some a → lookupZ d (view_index v i) = Some a.
Proof.
  intros H Hi. apply mapM_Some_1 in H.
  destruct (Forall2_lookup_r _ _ _ _ _ H Hi) as (j & Hj & Hja).
  apply lookup_seq in Hj as [-> _]. exact Hja.
Qed.

Lemma ints_of_length (s : store) (v : view) (xs : list Z) :
  ints_of s v = Some xs → length xs = vlen v.
Proof.
  unfold ints_of. destruct (s !! vbase v) as [[d|d]|]; try done.
  apply gather_length.
Qed.

Lemma floats_of_length (s : store) (v : view) (ys : list float) :
  floats_of s v = Some ys → length ys = vlen v.
Proof.
  unfold floats_of. destruct (s !! vbase v) as [[d|d]|]; try done.
  apply gather_length.
Qed.

Lemma ints_of_dom (s : store) (v : view) (xs : list Z) :
  ints_of s v = Some xs → vbase v ∈ dom s.
Proof.
  unfold ints_of. intros H. apply elem_of_dom.
  destruct (s !! vbase v); [eauto | done].
Qed.

Lemma floats_of_dom (s : store) (v : view) (ys : list float) :
  floats_of s v = Some ys → vbase v ∈ dom s.
Proof.
  unfold floats_of. intros H. apply elem_of_dom.
  destruct (s !! vbase v); [eauto | done].
Qed.

Lemma ints_of_insert_new (s : store) (v : view) (xs : list Z) (l : loc) (b : buffer) :
  l ∉ dom s → ints_of s v = Some xs → ints_of (<[l := b]> s) v = Some xs.
Proof.
  intros Hl H. pose proof (ints_of_dom _ _ _ H) as Hd.
  unfold ints_of in *. rewrite lookup_insert_ne; [done | set_solver].
Qed.

Lemma floats_of_insert_new (s : store) (v : view) (ys : list float) (l : loc) (b : buffer) :
  l ∉ dom s → floats_of s v = Some ys → floats_of (<[l := b]> s) v = Some ys.
Proof.
  intros Hl H. pose proof (floats_of_dom _ _ _ H) as Hd.
  unfold floats_of in *. rewrite lookup_insert_ne; [done | set_solver].
Qed.

Lemma operand_value_insert_new (s : store) (o : operand) (a : ndvalue) (l : loc) (b : buffer) :
  l ∉ dom s → operand_value s o = Some a → operand_value (<[l := b]> s) o = Some a.
Proof.
  intros Hl. destruct o as [f|v]; simpl; [done|].
  destruct (floats_of s v) as [ys|] eqn:E; [|done].
  intros H. by rewrite (floats_of_insert_new _ _ _ _ _ Hl E).
Qed.

Lemma read_operand_value (s : store) (o : operand) (a : ndvalue) :
  operand_value s o = Some a → read_operand o s = Ok a s.
Proof.
  destruct o as [f|v]; simpl.
  - by intros [= <-].
  - unfold bind, read_floats. destruct (floats_of s v); simpl; [|done].
    by intros [= <-].
Qed.

Lemma fresh_dom_new (s : store) : fresh (dom s) ∉ dom s.
Proof. apply is_fresh. Qed.

(** ** Running [predict_over_time] *)

Section PredictRun.

Variables (s0 : store) (x : view) (y z : operand).
Variables (xs : list Z) (yv zv : ndvalue).
Hypothesis Hx : ints_of s0 x = Some xs.
Hypothesis Hy : operand_value s0 y = Some yv.
Hypothesis Hz : operand_value s0 z = Some zv.

Let out : loc := fresh (dom s0).
Let n : nat := length xs.

Lemma predict_body_run (t : nat) (d : list float) :
  predict_body x y z (Matrix out n 15) t (<[out := FloatBuf d]> s0) =
  match column n t xs yv zv with
  | inr c => Ok tt (<[out := FloatBuf (set_column 15 t c d)]> s0)
  | inl e => Raise e (<[out := FloatBuf d]> s0)
  end.
Proof.
  unfold predict_body, bind, read_ints.
  rewrite (ints_of_insert_new _ _ _ _ _ (fresh_dom_new s0) Hx).
  rewrite (read_operand_value _ _ _
             (operand_value_insert_new _ _ _ _ _ (fresh_dom_new s0) Hy)).
  rewrite (read_operand_value _ _ _
             (operand_value_insert_new _ _ _ _ _ (fresh_dom_new s0) Hz)).
  unfold column.
  destruct (rhs_expr (Z.of_nat t) xs yv zv) as [e|a]; simpl; [done|].
  unfold assign_column; simpl. rewrite lookup_insert_eq.
  destruct (broadcast_to n a) as [c|]; [|done].
  by rewrite insert_insert_eq.
Qed.

Lemma predict_loop_run (ts : list nat) (d : list float) :
  for_each ts (predict_body x y z (Matrix out n 15)) (<[out := FloatBuf d]> s0) =
  match fill_columns 15 (λ t, column n t xs yv zv) ts d with
  | inr d' => Ok tt (<[out := FloatBuf d']> s0)
  | inl (e, d') => Raise e (<[out := FloatBuf d']> s0)
  end.
Proof.
  revert d. induction ts as [|t ts IH]; intros d; simpl; [done|].
  unfold bind. rewrite predict_body_run.
  destruct (column n t xs yv zv) as [e|c]; [done|]. apply IH.
Qed.

Lemma predict_over_time_run (overlay : bool) :
  predict_over_time x y z overlay s0 =
  match fill_columns 15 (λ t, column n t xs yv zv) (range 15)
          (replicate (n * 15) 0%float) with
  | inr d =>
      let s1 := <[out := FloatBuf d]> s0 in
      let res := fresh (dom s1) in
      Ok (Matrix res n 15)
         (<[res := FloatBuf ((λ v, (if overlay then 1.5 else 1.0) * v)%float <$> d)]> s1)
  | inl (e, d) => Raise e (<[out := FloatBuf d]> s0)
  end.
Proof.
  unfold predict_over_time, np_zeros, alloc, bind, ret.
  cbv beta iota zeta.
  rewrite <- (ints_of_length _ _ _ Hx). fold n. fold out.
  rewrite predict_loop_run.
  destruct (fill_columns _ _ _ _) as [[e d]|d]; [done|].
  unfold scalar_mul, bind, alloc, ret.
  cbn [mbase mrows mcols]. by rewrite lookup_insert_eq.
Qed.

Lemma predict_over_time_observe (overlay : bool) :
  observe (predict_over_time x y z overlay s0) = predict_model xs yv zv overlay.
Proof.
  rewrite predict_over_time_run. unfold predict_model. fold n.
  destruct (fill_columns _ _ _ _) as [[e d]|d]; [done|].
  simpl. by rewrite lookup_insert_eq.
Qed.

End PredictRun.

(** ** Row-major indexing *)

Lemma index_inj (cols i t i' t' : nat) :
  (t < cols)%nat → (t' < cols)%nat →
  (i * cols + t = i' * cols + t')%nat → i = i' ∧ t = t'.
Proof.
  intros Ht Ht' H.
  assert (i = i') as ->.
  { pose proof (f_equal (λ k, (k / cols)%nat) H) as Hd. simpl in Hd.
    by rewrite !Nat.div_add_l, !Nat.div_small, !Nat.add_0_r in Hd by lia. }
  split; [done | lia].
Qed.

Lemma set_column_from_length (cols t i : nat) (col d : list float) :
  length (set_column_from cols t i col d) = length d.
Proof.
  revert i d. induction col as [|v col IH]; intros i d; simpl; [done|].
  by rewrite IH, length_insert.
Qed.

Lemma set_column_from_lookup (cols t i0 : nat) (col d : list float) (i t' : nat) :
  (t < cols)%nat → (t' < cols)%nat →
  ((i0 + length col) * cols ≤ length d)%nat →
  set_column_from cols t i0 col d !! (i * cols + t')%nat =
  if decide (t' = t ∧ (i0 ≤ i < i0 + length col)%nat)
  then col !! (i - i0)%nat
  else d !! (i * cols + t')%nat.
Proof.
  intros Ht Ht'. revert i0 d.
  induction col as [|v col IH]; intros i0 d Hlen; simpl in *.
  - case_decide; [lia | done].
  - rewrite IH by (rewrite length_insert; lia).
    destruct (decide (t' = t ∧ i = i0)) as [[-> ->]|Hne].
    + rewrite decide_False by lia. rewrite decide_True by lia.
      rewrite Nat.sub_diag. simpl.
      apply list_lookup_insert_eq. nia.
    + rewrite list_lookup_insert_ne
        by (intros Heq; apply index_inj in Heq as [? ?]; [lia | done | done]).
      repeat case_decide; try lia; try done.
      replace (i - i0)%nat with (S (i - S i0)) by lia. done.
Qed.

Lemma set_column_lookup (cols t : nat) (col d : list float) (i t' : nat) :
  (t < cols)%nat → (t' < cols)%nat → (i < length col)%nat →
  (length col * cols ≤ length d)%nat →
  set_column cols t col d !! (i * cols + t')%nat =
  if decide (t' = t) then col !! i else d !! (i * cols + t')%nat.
Proof.
  intros Ht Ht' Hi Hlen. unfold set_column.
  rewrite set_column_from_lookup by (simpl; lia).
  rewrite Nat.sub_0_r.
  repeat case_decide; try lia; done.
Qed.

Lemma set_column_length (cols t : nat) (col d : list float) :
  length (set_column cols t col d) = length d.
Proof. apply set_column_from_length. Qed.

Lemma matrix_data_length (rows cols : nat) (f : nat → nat → float) :
  length (matrix_data rows cols f) = (rows * cols)%nat.
Proof. unfold matrix_data. by rewrite length_fmap, length_seq. Qed.

Lemma matrix_data_lookup (rows cols : nat) (f : nat → nat → float) (i t : nat) :
  (i < rows)%nat → (t < cols)%nat →
  matrix_data rows cols f !! (i * cols + t)%nat = Some (f i t).
Proof.
  intros Hi Ht. unfold matrix_data.
  rewrite list_lookup_fmap, lookup_seq_lt by nia. simpl.
  rewrite Nat.div_add_l, Nat.div_small, Nat.add_0_r by lia.
  rewrite Nat.add_comm, Nat.Div0.mod_add, Nat.mod_small by lia. done.
Qed.

Lemma matrix_data_unique (rows cols : nat) (f : nat → nat → float) (d : list float) :
  length d = (rows * cols)%nat →
  (∀ i t, (i < rows)%nat → (t < cols)%nat →
          d !! (i * cols + t)%nat = Some (f i t)) →
  d = matrix_data rows cols f.
Proof.
  intros Hlen H. apply list_eq. intros j.
  destruct (decide (j < rows * cols)%nat) as [Hj|Hj].
  - assert (0 < cols)%nat as Hc by nia.
    pose proof (Nat.div_mod_eq j cols) as Hdm.
    pose proof (Nat.mod_upper_bound j cols ltac:(lia)) as Hm.
    assert (j / cols < rows)%nat as Hd
      by (apply Nat.Div0.div_lt_upper_bound; lia).
    replace j with ((j / cols) * cols + j mod cols)%nat at 1 2 by lia.
    rewrite H, matrix_data_lookup by done. done.
  - rewrite !lookup_ge_None_2; [done | |]; rewrite ?matrix_data_length; lia.
Qed.

(** ** The loop over the time steps, in closed form *)

Lemma fill_columns_lookup (n cols : nat) (col : nat → exn + list float)
    (cf : nat → list float) (ts : list nat) (d : list float) :
  (∀ t, t ∈ ts → (t < cols)%nat ∧ col t = inr (cf t) ∧ length (cf t) = n) →
  length d = (n * cols)%nat →
  ∃ d', fill_columns cols col ts d = inr d' ∧
        length d' = (n * cols)%nat ∧
        ∀ i t, (i < n)%nat → (t < cols)%nat →
               d' !! (i * cols + t)%nat =
               if decide (t ∈ ts) then cf t !! i else d !! (i * cols + t)%nat.
Proof.
  revert d. induction ts as [|t0 ts IH]; intros d Hts Hlen; cbn [fill_columns].
  - exists d. split; [done|]. split; [done|]. intros i t _ _.
    case_decide as Hin; [by apply elem_of_nil in Hin | done].
  - destruct (Hts t0 (list_elem_of_here _ _)) as (Ht0 & -> & Hc0).
    destruct (IH (set_column cols t0 (cf t0) d)) as (d' & Hrun & Hlen' & Hd').
    { intros t Ht. apply Hts. by apply list_elem_of_further. }
    { by rewrite set_column_length. }
    exists d'. split; [done|]. split; [done|]. intros i t Hi Ht.
    rewrite Hd' by done.
    destruct (decide (t ∈ ts)) as [Hin|Hin].
    + rewrite decide_True; [done | by apply list_elem_of_further].
    + rewrite set_column_lookup by (try done; lia).
      destruct (decide (t = t0)) as [->|Hne].
      * rewrite decide_True; [done | apply list_elem_of_here].
      * rewrite decide_False; [done |].
        intros [?|?]%elem_of_cons; done.
Qed.

Lemma fill_columns_range (n cols : nat) (col : nat → exn + list float)
    (g : nat → nat → float) :
  (∀ t, (t < cols)%nat →
        ∃ c, col t = inr c ∧ length c = n ∧
             ∀ i, (i < n)%nat → c !! i = Some (g i t)) →
  fill_columns cols col (range cols) (replicate (n * cols) 0%float)
  = inr (matrix_data n cols g).
Proof.
  intros Hcol.
  destruct (fill_columns_lookup n cols col
              (λ t, match col t with inr c => c | inl _ => [] end)
              (range cols) (replicate (n * cols) 0%float))
    as (d' & Hrun & Hlen & Hd').
  { intros t Ht. apply elem_of_seq in Ht.
    destruct (Hcol t ltac:(lia)) as (c & -> & Hc & _). split; [lia | done]. }
  { by rewrite length_replicate. }
  rewrite Hrun. f_equal. apply matrix_data_unique; [done|].
  intros i t Hi Ht. rewrite Hd' by done.
  rewrite decide_True by (apply elem_of_seq; lia).
  destruct (Hcol t Ht) as (c & -> & _ & Hc). by apply Hc.
Qed.

(** ** Broadcasting *)

Lemma nd_get_lookup (d : list float) (i : nat) (v : float) :
  d !! i = Some v → nd_get (Vec1 d) i = v.
Proof.
  intros H. simpl. destruct d as [|u [|u' d']].
  - done.
  - destruct i; simpl in H; [by inversion H | done].
  - by apply list_lookup_total_correct.
Qed.

Lemma fits_np_scale (n : nat) (c : float) (a : ndvalue) :
  fits n (np_scale c a) = fits n a.
Proof. destruct a as [v|d]; simpl; [done|]. by rewrite length_fmap. Qed.

Lemma fits_length (n : nat) (d : list float) :
  fits n (Vec1 d) = true → length d = n ∨ length d = 1%nat.
Proof.
  simpl. intros [H|H]%orb_true_iff; apply Nat.eqb_eq in H; auto.
Qed.

Lemma nd_get_np_scale (n : nat) (c : float) (a : ndvalue) (i : nat) :
  fits n a = true → (i < n)%nat →
  nd_get (np_scale c a) i = (c * nd_get a i)%float.
Proof.
  destruct a as [v|d]; [done|]. intros Hf%fits_length Hi.
  destruct d as [|u [|u' d']]; [simpl in Hf; lia | done |].
  destruct Hf as [Hf|Hf]; [|simpl in Hf; lia].
  apply list_lookup_total_correct.
  change (((λ v, c * v)%float <$> (u :: u' :: d')) !! i
          = Some (c * ((u :: u' :: d') !!! i))%float).
  rewrite list_lookup_fmap.
  rewrite (list_lookup_lookup_total_lt (u :: u' :: d') i) by lia.
  done.
Qed.

Lemma broadcast2_fits (op : float → float → float) (p : list float)
    (b : ndvalue) (n : nat) :
  length p = n → fits n b = true →
  ∃ c, broadcast2 op (Vec1 p) b = inr (Vec1 c) ∧ length c = n ∧
       ∀ i, (i < n)%nat → c !! i = Some (op (p !!! i) (nd_get b i)).
Proof.
  intros Hp Hb. destruct b as [v|q].
  - exists ((λ u, op u v) <$> p). split; [done|].
    split; [by rewrite length_fmap|]. intros i Hi.
    rewrite list_lookup_fmap, (list_lookup_lookup_total_lt p i) by lia. done.
  - apply fits_length in Hb. destruct (decide (length q = n)) as [Hq|Hq].
    + exists (zip_with op p q). cbn [broadcast2].
      rewrite (proj2 (Nat.eqb_eq _ _)) by lia. split; [done|].
      split; [rewrite length_zip_with; lia|]. intros i Hi.
      rewrite lookup_zip_with.
      rewrite (list_lookup_lookup_total_lt p i) by lia.
      destruct (q !! i) as [v|] eqn:E.
      * by rewrite (nd_get_lookup _ _ _ E).
      * apply lookup_ge_None_1 in E. lia.
    + destruct Hb as [Hb|Hb]; [done|].
      destruct q as [|v [|v' q']]; simpl in Hb; try lia.
      exists ((λ u, op u v) <$> p). split.
      * simpl. destruct p as [|u [|u' p']]; simpl in *; try done; lia.
      * split; [by rewrite length_fmap|]. intros i Hi.
        rewrite list_lookup_fmap, (list_lookup_lookup_total_lt p i) by lia.
        done.
Qed.

Lemma column_fits (n t : nat) (xs : list Z) (yv zv : ndvalue) :
  length xs = n → fits n yv = true → fits n zv = true →
  ∃ c, column n t xs yv zv = inr c ∧ length c = n ∧
       ∀ i, (i < n)%nat →
            c !! i = Some (spec_value (Z.of_nat t) (xs !!! i) (nd_get yv i) (nd_get zv i)).
Proof.
  intros Hn Hy Hz. unfold column, rhs_expr, np_as_float.
  destruct (broadcast2_fits PrimFloat.add
              (float_of_Z <$> np_scale_int (Z.of_nat t) (np_square xs)) yv n)
    as (a & -> & Ha & Hai); [| done |].
  { unfold np_scale_int, np_square. by rewrite !length_fmap. }
  destruct (broadcast2_fits PrimFloat.sub a (np_scale 2 zv) n)
    as (b & -> & Hb & Hbi); [done | by rewrite fits_np_scale |].
  simpl. rewrite length_fmap, (proj2 (Nat.eqb_eq _ _)) by done.
  eexists. split; [done|]. split; [by rewrite length_fmap|].
  intros i Hi. rewrite list_lookup_fmap, Hbi by done. simpl.
  rewrite (list_lookup_total_correct _ _ _ (Hai i Hi)).
  rewrite (nd_get_np_scale n) by done.
  unfold spec_value. do 4 f_equal.
  apply list_lookup_total_correct.
  unfold np_scale_int, np_square. rewrite !list_lookup_fmap.
  rewrite (list_lookup_lookup_total_lt xs i) by lia. simpl.
  by rewrite Z.pow_2_r.
Qed.

(** ** [predict_over_time] on operands that fit *)

Lemma fmap_matrix_data (h : float → float) (rows cols : nat) (g : nat → nat → float) :
  h <$> matrix_data rows cols g = matrix_data rows cols (λ i t, h (g i t)).
Proof. unfold matrix_data. by rewrite <- list_fmap_compose. Qed.

Lemma predict_model_fits (xs : list Z) (yv zv : ndvalue) (overlay : bool) :
  fits (length xs) yv = true → fits (length xs) zv = true →
  predict_model xs yv zv overlay =
  Returned (length xs) 15 (matrix_data (length xs) 15 (model_entry xs yv zv overlay)).
Proof.
  intros Hy Hz. unfold predict_model.
  rewrite (fill_columns_range (length xs) 15 _
             (λ i t, spec_value (Z.of_nat t) (xs !!! i) (nd_get yv i) (nd_get zv i))).
  - by rewrite fmap_matrix_data.
  - intros t _. by apply column_fits.
Qed.

Lemma predict_model_unfit (xs : list Z) (yv zv : ndvalue) (overlay : bool) (e : exn) :
  column (length xs) 0 xs yv zv = inl e →
  predict_model xs yv zv overlay = Raised e.
Proof. intros H. unfold predict_model. cbn [range seq fill_columns]. by rewrite H. Qed.

Lemma fresh_after_insert (s : store) (l : loc) (b : buffer) :
  (fresh (dom (<[l := b]> s)) ∉ dom s) ∧ fresh (dom (<[l := b]> s)) ≠ l.
Proof.
  pose proof (fresh_dom_new (<[l := b]> s)) as Hf. split.
  - intros Hin. apply Hf. apply elem_of_dom. apply elem_of_dom in Hin.
    destruct (decide (l = fresh (dom (<[l := b]> s)))) as [<-|Hne].
    + rewrite lookup_insert_eq. eauto.
    + by rewrite lookup_insert_ne.
  - intros Heq. apply Hf. rewrite Heq at 1.
    apply elem_of_dom. rewrite lookup_insert_eq. eauto.
Qed.

Lemma predict_over_time_fits (s : store) (x : view) (y z : operand)
    (xs : list Z) (yv zv : ndvalue) (overlay : bool) :
  ints_of s x = Some xs →
  operand_value s y = Some yv →
  operand_value s z = Some zv →
  fits (length xs) yv = true → fits (length xs) zv = true →
  ∃ out res d,
    (out ∉ dom s) ∧ (res ∉ dom s) ∧ res ≠ out ∧
    predict_over_time x y z overlay s =
      Ok (Matrix res (length xs) 15)
         (<[res := FloatBuf (matrix_data (length xs) 15 (model_entry xs yv zv overlay))]>
            (<[out := FloatBuf d]> s)).
Proof.
  intros Hx Hy Hz Hfy Hfz.
  pose proof (predict_over_time_run s x y z xs yv zv Hx Hy Hz overlay) as Hrun.
  pose proof (predict_model_fits xs yv zv overlay Hfy Hfz) as Hm.
  unfold predict_model in Hm.
  destruct (fill_columns _ _ _ _) as [[e d]|d]; [done|].
  injection Hm as Hm. cbn zeta in Hrun. rewrite Hm in Hrun.
  destruct (fresh_after_insert s (fresh (dom s)) (FloatBuf d)) as [Hr1 Hr2].
  eexists (fresh (dom s)), _, d. split; [apply fresh_dom_new|].
  split; [|split; [|exact Hrun]]; done.
Qed.

Lemma getitem2_insert (s : store) (l : loc) (rows cols : nat)
    (f : nat → nat → float) (i t : nat) :
  (i < rows)%nat → (t < cols)%nat →
  getitem2 (<[l := FloatBuf (matrix_data rows cols f)]> s) (Matrix l rows cols) i t
  = Some (f i t).
Proof.
  intros Hi Ht. unfold getitem2. cbn [mbase mrows mcols].
  rewrite lookup_insert_eq.
  rewrite (proj2 (Nat.ltb_lt _ _) Hi), (proj2 (Nat.ltb_lt _ _) Ht).
  by apply matrix_data_lookup.
Qed.

Lemma fits_same_length (n : nat) (d : list float) :
  length d = n → fits n (Vec1 d) = true.
Proof. intros <-. simpl. by rewrite Nat.eqb_refl. Qed.

Lemma operand_value_array (s : store) (v : view) (d : list float) :
  floats_of s v = Some d → operand_value s (NdArray v) = Some (Vec1 d).
Proof. intros H. simpl. by rewrite H. Qed.

(** ** Running the generalized ufunc *)

Lemma index_bound (n cols i t : nat) :
  (i < n)%nat → (t < cols)%nat → (i * cols + t < n * cols)%nat.
Proof.
  intros Hi Ht.
  assert (S i * cols ≤ n * cols)%nat by (apply Nat.mul_le_mono_r; lia).
  simpl in *. lia.
Qed.

Lemma ints_of_getitem (s : store) (v : view) (xs : list Z) (i : nat) :
  ints_of s v = Some xs → (i < length xs)%nat →
  getitem_int v i s = Ok (xs !!! i) s.
Proof.
  intros H Hi. unfold getitem_int. unfold ints_of in H.
  destruct (s !! vbase v) as [[d|d]|]; try done.
  by rewrite (gather_lookup d v xs i (xs !!! i) H
                (list_lookup_lookup_total_lt xs i Hi)).
Qed.

Lemma floats_of_getitem (s : store) (v : view) (ys : list float) (i : nat) :
  floats_of s v = Some ys → (i < length ys)%nat →
  getitem_float v i s = Ok (ys !!! i) s.
Proof.
  intros H Hi. unfold getitem_float. unfold floats_of in H.
  destruct (s !! vbase v) as [[d|d]|]; try done.
  by rewrite (gather_lookup d v ys i (ys !!! i) H
                (list_lookup_lookup_total_lt ys i Hi)).
Qed.

Lemma operand_item_value (s : store) (o : operand) (a : ndvalue) (n i : nat) :
  operand_value s o = Some a → fits n a = true → (i < n)%nat →
  operand_item o i s = Ok (nd_get a i) s.
Proof.
  destruct o as [f|v]; simpl.
  - by intros [= <-] _ _.
  - destruct (floats_of s v) as [d|] eqn:E; [|done].
    intros [= <-] Hf%fits_length Hi. simpl.
    pose proof (floats_of_length _ _ _ E) as Hlen.
    unfold bindex. destruct d as [|u [|u' d']].
    + simpl in Hf. lia.
    + rewrite <- Hlen. simpl. by rewrite (floats_of_getitem _ _ _ 0%nat E) by (simpl; lia).
    + rewrite <- Hlen. simpl length. simpl Nat.eqb.
      destruct Hf as [Hf|Hf]; [|simpl in Hf; lia].
      by rewrite (floats_of_getitem _ _ _ i E) by lia.
Qed.

Section KernelRun.

Variables (s0 : store) (out : loc) (n cols : nat).
Variables (xi : Z) (yi zi : float) (overlay : bool) (dummy : view).

Let adj : float := (if overlay then 1.5 else 1.0)%float.

Lemma setitem_row (i t : nat) (v : float) (d : list float) :
  (i < n)%nat → (t < cols)%nat → length d = (n * cols)%nat →
  setitem (matrix_row (Matrix out n cols) i) t v (<[out := FloatBuf d]> s0)
  = Ok tt (<[out := FloatBuf (<[(i * cols + t)%nat := v]> d)]> s0).
Proof.
  intros Hi Ht Hlen. pose proof (index_bound n cols i t Hi Ht) as Hb.
  unfold setitem, matrix_row, view_index.
  cbn [vbase voffset vstride vlen mbase mcols].
  rewrite lookup_insert_eq.
  replace (Z.of_nat (i * cols) + Z.of_nat t * 1)%Z
    with (Z.of_nat (i * cols + t)) by lia.
  rewrite (proj2 (Z.leb_le _ _)) by lia.
  rewrite (proj2 (Z.ltb_lt _ _)) by lia.
  cbn [andb]. by rewrite Nat2Z.id, insert_insert_eq.
Qed.

Lemma kernel_loop_run (i : nat) (ts : list nat) (d : list float) :
  (i < n)%nat → (∀ t, t ∈ ts → (t < cols)%nat) →
  length d = (n * cols)%nat →
  ∃ d',
    for_each ts (λ t, setitem (matrix_row (Matrix out n cols) i) t
                        (kernel_value adj (Z.of_nat t) xi yi zi))
      (<[out := FloatBuf d]> s0)
    = Ok tt (<[out := FloatBuf d']> s0) ∧
    length d' = (n * cols)%nat ∧
    ∀ i' t', (i' < n)%nat → (t' < cols)%nat →
      d' !! (i' * cols + t')%nat =
      if decide (i' = i ∧ t' ∈ ts)
      then Some (kernel_value adj (Z.of_nat t') xi yi zi)
      else d !! (i' * cols + t')%nat.
Proof.
  intros Hi. revert d.
  induction ts as [|t ts IH]; intros d Hts Hlen; cbn [for_each].
  - exists d. split; [done|]. split; [done|]. intros i' t' _ _.
    case_decide as Hd; [|done]. destruct Hd as [_ Hd].
    by apply elem_of_nil in Hd.
  - unfold bind.
    rewrite setitem_row by (try done; apply Hts, list_elem_of_here).
    destruct (IH (<[(i * cols + t)%nat :=
                     kernel_value adj (Z.of_nat t) xi yi zi]> d))
      as (d' & Hrun & Hlen' & Hd').
    { intros t' Ht'. by apply Hts, list_elem_of_further. }
    { by rewrite length_insert. }
    exists d'. split; [done|]. split; [done|]. intros i' t' Hi' Ht'.
    rewrite Hd' by done.
    pose proof (Hts t (list_elem_of_here _ _)) as Ht.
    destruct (decide (i' = i ∧ t' ∈ ts)) as [[-> Hin]|Hno].
    + rewrite decide_True; [done|]. split; [done|]. by apply list_elem_of_further.
    + destruct (decide (i' = i ∧ t' = t)) as [[-> ->]|Hne].
      * rewrite decide_True by (split; [done | apply list_elem_of_here]).
        apply list_lookup_insert_eq. rewrite Hlen. by apply index_bound.
      * rewrite list_lookup_insert_ne.
        -- rewrite decide_False; [done|].
           intros [-> [->|Hin]%elem_of_cons]; [by apply Hne | by apply Hno].
        -- intros Heq. apply index_inj in Heq as [-> ->]; [|done|done].
           by apply Hne.
Qed.

Lemma kernel_run (i : nat) (d : list float) :
  (i < n)%nat → length d = (n * cols)%nat →
  ∃ d',
    kernel xi yi zi overlay dummy (matrix_row (Matrix out n cols) i)
      (<[out := FloatBuf d]> s0)
    = Ok tt (<[out := FloatBuf d']> s0) ∧
    length d' = (n * cols)%nat ∧
    ∀ i' t', (i' < n)%nat → (t' < cols)%nat →
      d' !! (i' * cols + t')%nat =
      if decide (i' = i)
      then Some (kernel_value adj (Z.of_nat t') xi yi zi)
      else d !! (i' * cols + t')%nat.
Proof.
  intros Hi Hlen. unfold kernel. cbn [matrix_row vlen mcols]. fold adj.
  destruct (kernel_loop_run i (range cols) d Hi) as (d' & Hrun & Hlen' & Hd');
    [by intros t [_ Ht]%elem_of_seq | done |].
  exists d'. split; [exact Hrun|]. split; [done|]. intros i' t' Hi' Ht'.
  rewrite Hd' by done.
  destruct (decide (i' = i)) as [->|Hne].
  - rewrite decide_True; [done|]. split; [done|]. apply elem_of_seq. lia.
  - rewrite decide_False; [done|]. by intros [? _].
Qed.

End KernelRun.

Lemma operand_dim_value (s : store) (o : operand) (a : ndvalue) :
  operand_value s o = Some a → operand_dim o = nd_dim a.
Proof.
  destruct o as [f|v]; simpl; [by intros [= <-]|].
  destruct (floats_of s v) as [d|] eqn:E; [|done].
  intros [= <-]. simpl. by rewrite (floats_of_length _ _ _ E).
Qed.

Lemma fits_dim (n : nat) (a : ndvalue) :
  dim_fits n (nd_dim a) → fits n a = true.
Proof.
  destruct a as [v|d]; [done|]. simpl.
  intros [H|[H|H]]; [done | |]; injection H as ->.
  - by rewrite Nat.eqb_refl.
  - by rewrite orb_true_r.
Qed.

Lemma dim_fits_mono (n n' : nat) (d : option nat) :
  n = n' ∨ n = 1%nat → dim_fits n d → dim_fits n' d.
Proof.
  unfold dim_fits. intros [->| ->] [H|[H|H]]; auto.
Qed.

Lemma broadcast_dim_inv (k : nat) (d r : option nat) :
  broadcast_dim (Some k) d = inr r →
  ∃ n, r = Some n ∧ (k = n ∨ k = 1%nat) ∧ dim_fits n d.
Proof.
  unfold dim_fits. destruct d as [m|]; cbn [broadcast_dim].
  - destruct (Nat.eqb_spec k m) as [->|Hkm]; [intros [= <-]; eauto 8|].
    destruct (Nat.eqb_spec k 1) as [->|Hk1]; [intros [= <-]; eauto 8|].
    destruct (Nat.eqb_spec m 1) as [->|Hm1]; [intros [= <-]; eauto 8|done].
  - intros [= <-]. eauto 8.
Qed.

Lemma broadcast_dims_inv (k : nat) (dy dz dr shape : option nat) :
  broadcast_dims [Some k; dy; dz; None; dr] = inr shape →
  ∃ n, shape = Some n ∧ (k = n ∨ k = 1%nat) ∧ dim_fits n dy ∧ dim_fits n dz.
Proof.
  unfold broadcast_dims. cbn [foldl].
  change (broadcast_dim None (Some k)) with (inr (Some k) : exn + option nat).
  destruct (broadcast_dim (Some k) dy) as [e|r1] eqn:E1; [done|].
  apply broadcast_dim_inv in E1 as (n1 & -> & Hk1 & Hy1).
  destruct (broadcast_dim (Some n1) dz) as [e|r2] eqn:E2; [done|].
  apply broadcast_dim_inv in E2 as (n2 & -> & Hk2 & Hz2).
  change (broadcast_dim (Some n2) None) with (inr (Some n2) : exn + option nat).
  intros (n3 & -> & Hk3 & _)%broadcast_dim_inv.
  exists n3. split; [done|].
  assert (n1 = n3 ∨ n1 = 1%nat) as H13 by (destruct Hk2, Hk3; subst; auto).
  split; [destruct Hk1, H13; subst; auto|].
  split.
  - by apply (dim_fits_mono n1).
  - by apply (dim_fits_mono n2).
Qed.

Section FastRun.

Variable uninit : loc → nat → float.
Variables (s0 : store) (x : view) (y z : operand) (overlay : bool) (res : farray).
Variables (xs : list Z) (yv zv : ndvalue) (n : nat).
Hypothesis Hx : ints_of s0 x = Some xs.
Hypothesis Hy : operand_value s0 y = Some yv.
Hypothesis Hz : operand_value s0 z = Some zv.
Hypothesis Hxn : length xs = n ∨ length xs = 1%nat.
Hypothesis Hfy : fits n yv = true.
Hypothesis Hfz : fits n zv = true.

Let out : loc := fresh (dom s0).
Let cols : nat := core_dim res.

Lemma fast_row_run (i : nat) (d : list float) :
  (i < n)%nat → length d = (n * cols)%nat →
  ∃ d',
    fast_row x y z overlay res (Matrix out n cols) i (<[out := FloatBuf d]> s0)
    = Ok tt (<[out := FloatBuf d']> s0) ∧
    length d' = (n * cols)%nat ∧
    ∀ i' t', (i' < n)%nat → (t' < cols)%nat →
      d' !! (i' * cols + t')%nat =
      if decide (i' = i)
      then Some (fast_entry xs yv zv overlay i t')
      else d !! (i' * cols + t')%nat.
Proof.
  intros Hi Hlen. unfold fast_row, bind.
  rewrite (ints_of_getitem _ x xs (bindex (vlen x) i)
             (ints_of_insert_new _ _ _ _ _ (fresh_dom_new s0) Hx)).
  2: { rewrite <- (ints_of_length _ _ _ Hx). unfold bindex.
       destruct (Nat.eqb_spec (length xs) 1); lia. }
  rewrite (operand_item_value _ y yv n i
             (operand_value_insert_new _ _ _ _ _ (fresh_dom_new s0) Hy) Hfy Hi).
  rewrite (operand_item_value _ z zv n i
             (operand_value_insert_new _ _ _ _ _ (fresh_dom_new s0) Hz) Hfz Hi).
  rewrite <- (ints_of_length _ _ _ Hx).
  apply kernel_run; done.
Qed.

Lemma fast_rows_run (rows : list nat) (d : list float) :
  (∀ i, i ∈ rows → (i < n)%nat) → length d = (n * cols)%nat →
  ∃ d',
    for_each rows (fast_row x y z overlay res (Matrix out n cols)) (<[out := FloatBuf d]> s0)
    = Ok tt (<[out := FloatBuf d']> s0) ∧
    length d' = (n * cols)%nat ∧
    ∀ i' t', (i' < n)%nat → (t' < cols)%nat →
      d' !! (i' * cols + t')%nat =
      if decide (i' ∈ rows)
      then Some (fast_entry xs yv zv overlay i' t')
      else d !! (i' * cols + t')%nat.
Proof.
  revert d. induction rows as [|i rows IH]; intros d Hrows Hlen; cbn [for_each].
  - exists d. split; [done|]. split; [done|]. intros i' t' _ _.
    case_decide as Hd; [by apply elem_of_nil in Hd | done].
  - destruct (fast_row_run i d (Hrows i (list_elem_of_here _ _)) Hlen)
      as (d1 & Hrun1 & Hlen1 & Hd1).
    destruct (IH d1) as (d' & Hrun & Hlen' & Hd');
      [by intros j Hj; apply Hrows, list_elem_of_further | done |].
    exists d'. unfold bind. rewrite Hrun1.
    split; [done|]. split; [done|]. intros i' t' Hi' Ht'.
    rewrite Hd' by done.
    destruct (decide (i' ∈ rows)) as [Hin|Hin].
    + rewrite decide_True; [done | by apply list_elem_of_further].
    + rewrite Hd1 by done.
      destruct (decide (i' = i)) as [->|Hne].
      * rewrite decide_True; [done | apply list_elem_of_here].
      * rewrite decide_False; [done|].
        intros [?|?]%elem_of_cons; done.
Qed.

Lemma fast_predict_over_time_run :
  broadcast_dims [Some (vlen x); operand_dim y; operand_dim z; None;
                  farray_dim res] = inr (Some n) →
  fast_predict_over_time uninit x y z overlay res s0 =
  Ok (Matrix out n cols)
     (<[out := FloatBuf (matrix_data n cols (fast_entry xs yv zv overlay))]> s0).
Proof.
  intros Hb. unfold fast_predict_over_time, bind at 1. rewrite Hb.
  cbn [lift ret default]. unfold np_empty, bind, id. fold out. fold cols.
  destruct (fast_rows_run (range n) (uninit out <$> seq 0 (n * cols)))
    as (d' & Hrun & Hlen & Hd').
  { by intros i [_ Hi]%elem_of_seq. }
  { by rewrite length_fmap, length_seq. }
  rewrite Hrun. unfold ret. do 2 f_equal. f_equal.
  apply matrix_data_unique; [done|].
  intros i t Hi Ht. rewrite Hd' by done.
  rewrite decide_True; [done|]. apply elem_of_seq. lia.
Qed.

End FastRun.

Lemma fast_predict_over_time_observe (uninit : loc → nat → float) (s : store)
    (x : view) (y z : operand) (overlay : bool) (res : farray)
    (xs : list Z) (yv zv : ndvalue) :
  ints_of s x = Some xs →
  operand_value s y = Some yv →
  operand_value s z = Some zv →
  observe (fast_predict_over_time uninit x y z overlay res s)
  = fast_model xs yv zv overlay (farray_dim res) (core_dim res).
Proof.
  intros Hx Hy Hz. unfold fast_model.
  rewrite <- (operand_dim_value _ _ _ Hy), <- (operand_dim_value _ _ _ Hz).
  rewrite (ints_of_length _ _ _ Hx).
  destruct (broadcast_dims _) as [e|shape] eqn:E.
  - unfold fast_predict_over_time, bind at 1. by rewrite E.
  - pose proof E as E'.
    apply broadcast_dims_inv in E' as (n & -> & Hxn & Hfy & Hfz).
    rewrite <- (ints_of_length _ _ _ Hx) in Hxn.
    rewrite (operand_dim_value _ _ _ Hy) in Hfy.
    rewrite (operand_dim_value _ _ _ Hz) in Hfz.
    rewrite (fast_predict_over_time_run uninit s x y z overlay res xs yv zv n
               Hx Hy Hz Hxn (fits_dim _ _ Hfy) (fits_dim _ _ Hfz) E).
    cbn [observe mbase mrows mcols default]. by rewrite lookup_insert_eq.
Qed.

(** ** Frames *)

Lemma preserves_insert_new (s : store) (l : loc) (b : buffer) :
  l ∉ dom s → preserves s (<[l := b]> s).
Proof.
  intros Hl l' b' H. rewrite lookup_insert_ne; [done|].
  intros ->. apply Hl, elem_of_dom. eauto.
Qed.

Lemma preserves_trans (s1 s2 s3 : store) :
  preserves s1 s2 → preserves s2 s3 → preserves s1 s3.
Proof. intros H12 H23 l b H. by apply H23, H12. Qed.

Lemma preserves_ints_of (s s' : store) (v : view) (xs : list Z) :
  preserves s s' → ints_of s v = Some xs → ints_of s' v = Some xs.
Proof.
  intros Hp. unfold ints_of.
  destruct (s !! vbase v) as [b|] eqn:E; [|done].
  by rewrite (Hp _ _ E).
Qed.

Lemma preserves_floats_of (s s' : store) (v : view) (ys : list float) :
  preserves s s' → floats_of s v = Some ys → floats_of s' v = Some ys.
Proof.
  intros Hp. unfold floats_of.
  destruct (s !! vbase v) as [b|] eqn:E; [|done].
  by rewrite (Hp _ _ E).
Qed.

Lemma preserves_operand_value (s s' : store) (o : operand) (a : ndvalue) :
  preserves s s' → operand_value s o = Some a → operand_value s' o = Some a.
Proof.
  intros Hp. destruct o as [f|v]; simpl; [done|].
  destruct (floats_of s v) as [ys|] eqn:E; [|done].
  by rewrite (preserves_floats_of _ _ _ _ Hp E).
Qed.

(** ** The variants agree on arguments of equal length *)

Lemma matrix_data_ext (rows cols : nat) (f g : nat → nat → float) :
  (∀ i t, (i < rows)%nat → (t < cols)%nat → f i t = g i t) →
  matrix_data rows cols f = matrix_data rows cols g.
Proof.
  intros H. apply matrix_data_unique; [apply matrix_data_length|].
  intros i t Hi Ht. rewrite matrix_data_lookup by done. by rewrite H.
Qed.

Lemma bindex_lt (n i : nat) : (i < n)%nat → bindex n i = i.
Proof. unfold bindex. destruct (Nat.eqb_spec n 1); lia. Qed.

Lemma fast_entry_model_entry (xs : list Z) (yv zv : ndvalue) (overlay : bool)
    (i t : nat) :
  (i < length xs)%nat → (Z.of_nat t < 2 ^ 62)%Z →
  fast_entry xs yv zv overlay i t = model_entry xs yv zv overlay i t.
Proof.
  intros Hi Ht. unfold fast_entry, model_entry.
  rewrite bindex_lt by done.
  apply (kernel_value_spec_entry overlay). lia.
Qed.

Lemma broadcast_dims_equal (n : nat) (rdim : option nat) :
  dim_fits n rdim →
  broadcast_dims [Some n; Some n; Some n; None; rdim] = inr (Some n).
Proof.
  intros Hr. unfold broadcast_dims. cbn [foldl].
  assert (broadcast_dim (Some n) (Some n) = inr (Some n)) as Hnn
    by (cbn [broadcast_dim]; by rewrite Nat.eqb_refl).
  change (broadcast_dim None (Some n)) with (@inr exn (option nat) (Some n)).
  cbv beta iota. rewrite Hnn. cbv beta iota. rewrite Hnn. cbv beta iota.
  change (broadcast_dim (Some n) None) with (@inr exn (option nat) (Some n)).
  cbv beta iota.
  destruct Hr as [->|[->| ->]]; [done | done |].
  cbn [broadcast_dim].
  destruct (Nat.eqb_spec n 1) as [->|Hn]; done.
Qed.

Lemma fast_model_equal_lengths (xs : list Z) (ys zs : list float)
    (overlay : bool) (rdim : option nat) (cols : nat) :
  length ys = length xs → length zs = length xs →
  dim_fits (length xs) rdim →
  fast_model xs (Vec1 ys) (Vec1 zs) overlay rdim cols =
  Returned (length xs) cols
    (matrix_data (length xs) cols (fast_entry xs (Vec1 ys) (Vec1 zs) overlay)).
Proof.
  intros Hy Hz Hr. unfold fast_model. cbn [nd_dim].
  rewrite Hy, Hz. by rewrite broadcast_dims_equal.
Qed.

(** ** Operands that do not fit *)

Lemma nd_dim_np_scale (c : float) (a : ndvalue) :
  nd_dim (np_scale c a) = nd_dim a.
Proof. destruct a as [v|d]; simpl; [done|]. by rewrite length_fmap. Qed.

Lemma nd_dim_np_sub_scalar (a : ndvalue) (c : float) :
  nd_dim (np_sub_scalar a c) = nd_dim a.
Proof. destruct a as [v|d]; simpl; [done|]. by rewrite length_fmap. Qed.

Lemma broadcast2_dim (op : float → float → float) (a b : ndvalue) :
  match broadcast_dim (nd_dim a) (nd_dim b) with
  | inl e => broadcast2 op a b = inl e
  | inr d => ∃ c, broadcast2 op a b = inr c ∧ nd_dim c = d
  end.
Proof.
  destruct a as [u|p], b as [v|q]; cbn [nd_dim broadcast_dim broadcast2].
  - eauto.
  - eexists. split; [done|]. simpl. by rewrite length_fmap.
  - eexists. split; [done|]. simpl. by rewrite length_fmap.
  - destruct (Nat.eqb_spec (length p) (length q)) as [Heq|Hne].
    { eexists. split; [done|]. simpl. rewrite length_zip_with. f_equal. lia. }
    destruct p as [|u [|u' p']], q as [|v [|v' q']]; simpl in *;
      try lia; try done;
      try (eexists; split; [done|]; simpl; by rewrite ?length_fmap).
Qed.

Lemma broadcast_to_dim (n : nat) (a : ndvalue) :
  nd_dim a ≠ Some n → nd_dim a ≠ Some 1%nat → nd_dim a ≠ None →
  broadcast_to n a = None.
Proof.
  destruct a as [v|d]; simpl; [done|]. intros Hn H1 _.
  destruct (Nat.eqb_spec (length d) n) as [Heq|Hne]; [by rewrite Heq in Hn|].
  destruct d as [|v [|v' d']]; done.
Qed.

Lemma dims_unfit (n : nat) (dy dz d1 d2 : option nat) :
  broadcast_dim (Some n) dy = inr d1 →
  broadcast_dim d1 dz = inr d2 →
  d2 = Some n ∨ d2 = Some 1%nat ∨ d2 = None →
  dim_fits n dy ∧ dim_fits n dz.
Proof.
  unfold dim_fits. intros H1 H2 H3.
  destruct dy as [m|]; cbn [broadcast_dim] in H1;
    repeat case_match; simplify_eq;
    destruct dz as [r|]; cbn [broadcast_dim] in H2;
    repeat case_match; simplify_eq;
    rewrite ?Nat.eqb_eq, ?Nat.eqb_neq in *;
    destruct H3 as [?|[?|?]]; simplify_eq; try lia; by auto 6.
Qed.

Lemma column_unfit (n t : nat) (xs : list Z) (yv zv : ndvalue) :
  length xs = n →
  fits n yv && fits n zv = false →
  column n t xs yv zv = inl ValueError.
Proof.
  intros Hn Hfit. unfold column, rhs_expr.
  pose proof (broadcast2_dim PrimFloat.add
                (np_as_float (np_scale_int (Z.of_nat t) (np_square xs))) yv) as H1.
  assert (nd_dim (np_as_float (np_scale_int (Z.of_nat t) (np_square xs))) = Some n)
    as Hd by (unfold np_as_float, np_scale_int, np_square; simpl;
              by rewrite !length_fmap, Hn).
  rewrite Hd in H1.
  destruct (broadcast_dim (Some n) (nd_dim yv)) as [e|d1] eqn:E1.
  { rewrite H1. destruct yv as [v|q]; [done|]. cbn [nd_dim broadcast_dim] in E1.
    repeat case_match; by simplify_eq. }
  destruct H1 as (a & -> & Ha).
  pose proof (broadcast2_dim PrimFloat.sub a (np_scale 2 zv)) as H2.
  rewrite Ha, nd_dim_np_scale in H2.
  destruct (broadcast_dim d1 (nd_dim zv)) as [e|d2] eqn:E2.
  { rewrite H2. destruct d1 as [k|], zv as [v|r]; try done.
    cbn [nd_dim broadcast_dim] in E2.
    repeat case_match; by simplify_eq. }
  destruct H2 as (b & -> & Hb).
  assert (¬ (d2 = Some n ∨ d2 = Some 1%nat ∨ d2 = None)) as Hno.
  { intros H. destruct (dims_unfit n _ _ _ _ E1 E2 H) as [Hy Hz].
    by rewrite (fits_dim _ _ Hy), (fits_dim _ _ Hz) in Hfit. }
  rewrite broadcast_to_dim; [done | | |];
    rewrite nd_dim_np_sub_scalar, Hb; intros ->; apply Hno; auto.
Qed.

Lemma predict_model_cases (xs : list Z) (yv zv : ndvalue) (overlay : bool) :
  predict_model xs yv zv overlay =
  if fits (length xs) yv && fits (length xs) zv
  then Returned (length xs) 15
         (matrix_data (length xs) 15 (model_entry xs yv zv overlay))
  else Raised ValueError.
Proof.
  destruct (fits (length xs) yv && fits (length xs) zv) eqn:E.
  - apply andb_true_iff in E as [Hy Hz]. by apply predict_model_fits.
  - apply predict_model_unfit. by apply column_unfit.
Qed.

(** * The specification, claim by claim *)

(** C1: for [x], [y], [z] of equal length [N], every element index [i]
    below [N] and every time step [t] in [0..14], the returned matrix has
    [result[i][t] = adj * (t * x[i]**2 + y[i] - 2*z[i] - 2*t)], with [adj]
    1.5 under overlay and 1.0 otherwise; the arithmetic is NumPy's on
    [int64] and [float64]. *)
Theorem predict_over_time_entry_formula (s : store) (x y z : view)
    (overlay : bool) (xs : list Z) (ys zs : list float) :
  ints_of s x = Some xs →
  floats_of s y = Some ys →
  floats_of s z = Some zs →
  length ys = length xs →
  length zs = length xs →
  ∃ m s',
    predict_over_time x (NdArray y) (NdArray z) overlay s = Ok m s' ∧
    ∀ i t xi yi zi,
      xs !! i = Some xi → ys !! i = Some yi → zs !! i = Some zi →
      (t < 15)%nat →
      getitem2 s' m i t = Some (spec_entry overlay (Z.of_nat t) xi yi zi).
Proof.
  intros Hx Hy Hz Hly Hlz.
  destruct (predict_over_time_fits s x (NdArray y) (NdArray z) xs
              (Vec1 ys) (Vec1 zs) overlay Hx
              (operand_value_array _ _ _ Hy) (operand_value_array _ _ _ Hz)
              (fits_same_length _ _ Hly) (fits_same_length _ _ Hlz))
    as (out & res & d & _ & _ & _ & Hrun).
  eexists _, _. split; [exact Hrun|].
  intros i t xi yi zi Hxi Hyi Hzi Ht.
  rewrite getitem2_insert by (try done; by apply lookup_lt_Some in Hxi).
  unfold model_entry.
  by rewrite (list_lookup_total_correct _ _ _ Hxi),
             (nd_get_lookup _ _ _ Hyi), (nd_get_lookup _ _ _ Hzi).
Qed.

Lemma predict_over_time_entry_formula_witness :
  ∃ m s',
    predict_over_time nb_x (NdArray nb_y) (NdArray nb_z) true nb_store = Ok m s' ∧
    ∀ i t xi yi zi,
      [2; 3] !! i = Some xi →
      [1; -1.5]%float !! i = Some yi →
      [0.5; 2]%float !! i = Some zi →
      (t < 15)%nat →
      getitem2 s' m i t = Some (spec_entry true (Z.of_nat t) xi yi zi).
Proof.
  apply (predict_over_time_entry_formula nb_store nb_x nb_y nb_z true
           [2; 3] [1; -1.5]%float [0.5; 2]%float);
    vm_compute; reflexivity.
Defined.

(** C2: for every [N], including [N = 0], and inputs of common length
    [N], the call returns a matrix of shape [(N, 15)]: [N] rows, 15
    columns, [N * 15] cells. *)
Theorem predict_over_time_shape (s : store) (x y z : view) (overlay : bool)
    (xs : list Z) (ys zs : list float) :
  ints_of s x = Some xs →
  floats_of s y = Some ys →
  floats_of s z = Some zs →
  length ys = length xs →
  length zs = length xs →
  ∃ m s' d,
    predict_over_time x (NdArray y) (NdArray z) overlay s = Ok m s' ∧
    mrows m = length xs ∧ mcols m = 15%nat ∧
    s' !! mbase m = Some (FloatBuf d) ∧
    length d = (length xs * 15)%nat.
Proof.
  intros Hx Hy Hz Hly Hlz.
  destruct (predict_over_time_fits s x (NdArray y) (NdArray z) xs
              (Vec1 ys) (Vec1 zs) overlay Hx
              (operand_value_array _ _ _ Hy) (operand_value_array _ _ _ Hz)
              (fits_same_length _ _ Hly) (fits_same_length _ _ Hlz))
    as (out & res & d & _ & _ & _ & Hrun).
  eexists _, _, _. split; [exact Hrun|]. cbn [mrows mcols mbase].
  split; [done|]. split; [done|]. split; [apply lookup_insert_eq|].
  apply matrix_data_length.
Qed.

Lemma predict_over_time_shape_witness :
  ∃ m s' d,
    predict_over_time nb_x (NdArray nb_y) (NdArray nb_z) false nb_store = Ok m s' ∧
    mrows m = 2%nat ∧ mcols m = 15%nat ∧
    s' !! mbase m = Some (FloatBuf d) ∧
    length d = 30%nat.
Proof.
  apply (predict_over_time_shape nb_store nb_x nb_y nb_z false
           [2; 3] [1; -1.5]%float [0.5; 2]%float);
    vm_compute; reflexivity.
Defined.

(** The empty case of C2, run: no rows, fifteen columns, no cells. *)
Example predict_over_time_shape_empty :
  observe (predict_over_time (View 1%positive 0 1 0)
             (NdArray (View 2%positive 0 2 0))
             (NdArray (View 2%positive 1 2 0)) false nb_store)
  = Returned 0 15 [].
Proof. vm_compute. reflexivity. Qed.

(** C3: on the same inputs of equal length, the direct call, the jitted
    function, the generalized ufunc called with a fifth argument of core
    length 15, and the two deferred calls once [compute] is invoked all
    return the same matrix; a deferred call is the direct call, run in the
    store in which [compute] is invoked. *)
Theorem execution_variants_agree (uninit : loc → nat → float) (s : store)
    (x y z : view) (overlay : bool) (res : farray)
    (xs : list Z) (ys zs : list float) :
  ints_of s x = Some xs →
  floats_of s y = Some ys →
  floats_of s z = Some zs →
  length ys = length xs →
  length zs = length xs →
  core_dim res = 15%nat →
  dim_fits (length xs) (farray_dim res) →
  ∃ data,
    observe (predict_over_time x (NdArray y) (NdArray z) overlay s)
      = Returned (length xs) 15 data ∧
    observe (jitted_func x (NdArray y) (NdArray z) overlay s)
      = Returned (length xs) 15 data ∧
    observe (fast_predict_over_time uninit x (NdArray y) (NdArray z) overlay res s)
      = Returned (length xs) 15 data ∧
    observe (compute (delayed_fast_predict_over_time uninit x (NdArray y)
                        (NdArray z) overlay res) s)
      = Returned (length xs) 15 data ∧
    observe (compute (fast_jitted_func x (NdArray y) (NdArray z)) s)
      = observe (predict_over_time x (NdArray y) (NdArray z) false s) ∧
    (∀ s1, compute (delayed_fast_predict_over_time uninit x (NdArray y)
                      (NdArray z) overlay res) s1
           = fast_predict_over_time uninit x (NdArray y) (NdArray z) overlay res s1) ∧
    (∀ s1, compute (fast_jitted_func x (NdArray y) (NdArray z)) s1
           = jitted_func x (NdArray y) (NdArray z) false s1).
Proof.
  intros Hx Hy Hz Hly Hlz Hc Hr.
  pose proof (operand_value_array _ _ _ Hy) as Hy'.
  pose proof (operand_value_array _ _ _ Hz) as Hz'.
  exists (matrix_data (length xs) 15 (model_entry xs (Vec1 ys) (Vec1 zs) overlay)).
  assert (observe (predict_over_time x (NdArray y) (NdArray z) overlay s)
          = Returned (length xs) 15
              (matrix_data (length xs) 15
                 (model_entry xs (Vec1 ys) (Vec1 zs) overlay))) as Hdirect.
  { rewrite (predict_over_time_observe s x _ _ xs _ _ Hx Hy' Hz').
    apply predict_model_fits; by apply fits_same_length. }
  assert (observe (fast_predict_over_time uninit x (NdArray y) (NdArray z)
                     overlay res s)
          = Returned (length xs) 15
              (matrix_data (length xs) 15
                 (model_entry xs (Vec1 ys) (Vec1 zs) overlay))) as Hfast.
  { rewrite (fast_predict_over_time_observe uninit s x _ _ overlay res
               xs _ _ Hx Hy' Hz').
    rewrite fast_model_equal_lengths, Hc by done. f_equal.
    apply matrix_data_ext. intros i t Hi Ht.
    apply fast_entry_model_entry; [done | lia]. }
  repeat split; done.
Qed.

Lemma execution_variants_agree_witness :
  ∃ data,
    observe (predict_over_time nb_x (NdArray nb_y) (NdArray nb_z) true nb_store)
      = Returned 2 15 data ∧
    observe (jitted_func nb_x (NdArray nb_y) (NdArray nb_z) true nb_store)
      = Returned 2 15 data ∧
    observe (fast_predict_over_time (λ _ _, nan) nb_x (NdArray nb_y)
               (NdArray nb_z) true nb_res nb_store)
      = Returned 2 15 data ∧
    observe (compute (delayed_fast_predict_over_time (λ _ _, nan) nb_x
                        (NdArray nb_y) (NdArray nb_z) true nb_res) nb_store)
      = Returned 2 15 data ∧
    observe (compute (fast_jitted_func nb_x (NdArray nb_y) (NdArray nb_z)) nb_store)
      = observe (predict_over_time nb_x (NdArray nb_y) (NdArray nb_z) false nb_store) ∧
    (∀ s1, compute (delayed_fast_predict_over_time (λ _ _, nan) nb_x
                      (NdArray nb_y) (NdArray nb_z) true nb_res) s1
           = fast_predict_over_time (λ _ _, nan) nb_x (NdArray nb_y)
               (NdArray nb_z) true nb_res s1) ∧
    (∀ s1, compute (fast_jitted_func nb_x (NdArray nb_y) (NdArray nb_z)) s1
           = jitted_func nb_x (NdArray nb_y) (NdArray nb_z) false s1).
Proof.
  apply (execution_variants_agree (λ _ _, nan) nb_store nb_x nb_y nb_z true
           nb_res [2; 3] [1; -1.5]%float [0.5; 2]%float);
    try (vm_compute; reflexivity).
  right. left. reflexivity.
Defined.

(** C4: on inputs of equal length, the matrix returned under
    [overlay = True] is, entry by entry, 1.5 times the matrix returned
    under [overlay = False]. *)
Theorem overlay_scales_by_one_and_a_half (s : store) (x y z : view)
    (xs : list Z) (ys zs : list float) :
  ints_of s x = Some xs →
  floats_of s y = Some ys →
  floats_of s z = Some zs →
  length ys = length xs →
  length zs = length xs →
  ∃ mT sT mF sF,
    predict_over_time x (NdArray y) (NdArray z) true s = Ok mT sT ∧
    predict_over_time x (NdArray y) (NdArray z) false s = Ok mF sF ∧
    mrows mT = mrows mF ∧ mcols mT = mcols mF ∧
    ∀ i t, (i < length xs)%nat → (t < 15)%nat →
      ∃ v, getitem2 sF mF i t = Some v ∧
           getitem2 sT mT i t = Some (1.5 * v)%float.
Proof.
  intros Hx Hy Hz Hly Hlz.
  pose proof (operand_value_array _ _ _ Hy) as Hy'.
  pose proof (operand_value_array _ _ _ Hz) as Hz'.
  destruct (predict_over_time_fits s x _ _ xs _ _ true Hx Hy' Hz'
              (fits_same_length _ _ Hly) (fits_same_length _ _ Hlz))
    as (oT & rT & dT & _ & _ & _ & HT).
  destruct (predict_over_time_fits s x _ _ xs _ _ false Hx Hy' Hz'
              (fits_same_length _ _ Hly) (fits_same_length _ _ Hlz))
    as (oF & rF & dF & _ & _ & _ & HF).
  eexists _, _, _, _. split; [exact HT|]. split; [exact HF|].
  split; [done|]. split; [done|]. intros i t Hi Ht.
  eexists. split; [by apply getitem2_insert|].
  rewrite getitem2_insert by done.
  unfold model_entry, spec_entry, spec_adj. by rewrite mul_one_l.
Qed.

Lemma overlay_scales_by_one_and_a_half_witness :
  ∃ mT sT mF sF,
    predict_over_time nb_x (NdArray nb_y) (NdArray nb_z) true nb_store = Ok mT sT ∧
    predict_over_time nb_x (NdArray nb_y) (NdArray nb_z) false nb_store = Ok mF sF ∧
    mrows mT = mrows mF ∧ mcols mT = mcols mF ∧
    ∀ i t, (i < 2)%nat → (t < 15)%nat →
      ∃ v, getitem2 sF mF i t = Some v ∧
           getitem2 sT mT i t = Some (1.5 * v)%float.
Proof.
  apply (overlay_scales_by_one_and_a_half nb_store nb_x nb_y nb_z
           [2; 3] [1; -1.5]%float [0.5; 2]%float);
    vm_compute; reflexivity.
Defined.

(** C5: for [x = [2]], [y = [1.0]], [z = [0.5]] and [overlay = False] the
    result is the single row [0.0, 2.0, 4.0, ..., 28.0]: the entry at time
    step [t] is [2 * t], and each step adds 2.0. *)
Theorem worked_example_row (s : store) (x y z : view) :
  ints_of s x = Some [2] →
  floats_of s y = Some [1%float] →
  floats_of s z = Some [0.5%float] →
  observe (predict_over_time x (NdArray y) (NdArray z) false s)
    = Returned 1 15 ex_row ∧
  (∀ t, (t < 15)%nat → ex_row !! t = Some (float_of_Z (2 * Z.of_nat t))) ∧
  (∀ t a b, ex_row !! t = Some a → ex_row !! S t = Some b → b = (a + 2)%float).
Proof.
  intros Hx Hy Hz. split; [|split].
  - rewrite (predict_over_time_observe s x _ _ [2] _ _ Hx
               (operand_value_array _ _ _ Hy) (operand_value_array _ _ _ Hz)).
    vm_compute. reflexivity.
  - intros t Ht. do 15 (destruct t as [|t]; [vm_compute; reflexivity|]). lia.
  - intros t a b Ha Hb.
    do 14 (destruct t as [|t];
           [injection Ha as <-; injection Hb as <-; vm_compute; reflexivity|]).
    destruct t; discriminate Hb.
Qed.

Lemma worked_example_row_witness :
  observe (predict_over_time ex_x (NdArray ex_y) (NdArray ex_z) false ex_store)
    = Returned 1 15 ex_row ∧
  (∀ t, (t < 15)%nat → ex_row !! t = Some (float_of_Z (2 * Z.of_nat t))) ∧
  (∀ t a b, ex_row !! t = Some a → ex_row !! S t = Some b → b = (a + 2)%float).
Proof.
  apply (worked_example_row ex_store ex_x ex_y ex_z); vm_compute; reflexivity.
Defined.

(** C6: the result of [predict_over_time] is a function of the contents
    of its arguments: two calls whose arguments hold the same numbers, in
    whatever store and layout, show the same outcome, the same matrix
    cell for cell or the same error. *)
Theorem predict_over_time_deterministic (s1 s2 : store) (x1 x2 : view)
    (y1 y2 z1 z2 : operand) (overlay : bool)
    (xs : list Z) (yv zv : ndvalue) :
  ints_of s1 x1 = Some xs → ints_of s2 x2 = Some xs →
  operand_value s1 y1 = Some yv → operand_value s2 y2 = Some yv →
  operand_value s1 z1 = Some zv → operand_value s2 z2 = Some zv →
  observe (predict_over_time x1 y1 z1 overlay s1)
  = observe (predict_over_time x2 y2 z2 overlay s2).
Proof.
  intros Hx1 Hx2 Hy1 Hy2 Hz1 Hz2.
  rewrite (predict_over_time_observe s1 x1 y1 z1 xs yv zv Hx1 Hy1 Hz1).
  by rewrite (predict_over_time_observe s2 x2 y2 z2 xs yv zv Hx2 Hy2 Hz2).
Qed.

Lemma predict_over_time_deterministic_witness :
  observe (predict_over_time nb_x (NdArray nb_y) (NdArray nb_z) true nb_store)
  = observe (predict_over_time alt_x (NdArray alt_y) (NdArray alt_z) true alt_store).
Proof.
  apply (predict_over_time_deterministic nb_store alt_store nb_x alt_x
           (NdArray nb_y) (NdArray alt_y) (NdArray nb_z) (NdArray alt_z) true
           [2; 3] (Vec1 [1; -1.5]%float) (Vec1 [0.5; 2]%float));
    vm_compute; reflexivity.
Defined.

(** C7: a call leaves every buffer the caller has as it was, so [x], [y]
    and [z] read as before; the returned matrix lives in a buffer that
    was not in the caller's store, hence not in the buffer of any
    argument.  The store is also intact when the call raises. *)
Theorem predict_over_time_frame (s : store) (x : view) (y z : operand)
    (overlay : bool) (xs : list Z) (yv zv : ndvalue) :
  ints_of s x = Some xs →
  operand_value s y = Some yv →
  operand_value s z = Some zv →
  match predict_over_time x y z overlay s with
  | Ok m s' =>
      preserves s s' ∧
      ints_of s' x = Some xs ∧
      operand_value s' y = Some yv ∧
      operand_value s' z = Some zv ∧
      (mbase m ∉ dom s) ∧
      mbase m ≠ vbase x ∧
      (∀ v, y = NdArray v ∨ z = NdArray v → mbase m ≠ vbase v)
  | Raise _ s' =>
      preserves s s' ∧
      ints_of s' x = Some xs ∧
      operand_value s' y = Some yv ∧
      operand_value s' z = Some zv
  end.
Proof.
  intros Hx Hy Hz.
  rewrite (predict_over_time_run s x y z xs yv zv Hx Hy Hz overlay).
  destruct (fill_columns _ _ _ _) as [[e d]|d]; cbn zeta.
  - pose proof (preserves_insert_new s _ (FloatBuf d) (fresh_dom_new s)) as Hp.
    split; [done|].
    split; [by apply (preserves_ints_of s)|].
    split; by apply (preserves_operand_value s).
  - destruct (fresh_after_insert s (fresh (dom s)) (FloatBuf d)) as [Hr1 Hr2].
    set (s1 := <[fresh (dom s) := FloatBuf d]> s) in *.
    assert (preserves s (<[fresh (dom s1) :=
              FloatBuf ((λ v, (if overlay then 1.5 else 1.0) * v)%float <$> d)]> s1))
      as Hp.
    { apply (preserves_trans _ s1).
      - apply preserves_insert_new, fresh_dom_new.
      - apply preserves_insert_new, fresh_dom_new. }
    cbn [mbase].
    split; [done|].
    split; [by apply (preserves_ints_of s)|].
    split; [by apply (preserves_operand_value s)|].
    split; [by apply (preserves_operand_value s)|].
    split; [done|].
    split.
    + intros Heq. apply Hr1. rewrite Heq. by apply (ints_of_dom _ _ xs).
    + intros v [-> | ->] Heq; apply Hr1; rewrite Heq.
      * simpl in Hy. destruct (floats_of s v) as [ys|] eqn:E; [|done].
        by apply (floats_of_dom _ _ ys).
      * simpl in Hz. destruct (floats_of s v) as [ys|] eqn:E; [|done].
        by apply (floats_of_dom _ _ ys).
Qed.

Lemma predict_over_time_frame_witness :
  match predict_over_time nb_x (NdArray nb_y) (NdArray nb_z) true nb_store with
  | Ok m s' =>
      preserves nb_store s' ∧
      ints_of s' nb_x = Some [2; 3] ∧
      operand_value s' (NdArray nb_y) = Some (Vec1 [1; -1.5]%float) ∧
      operand_value s' (NdArray nb_z) = Some (Vec1 [0.5; 2]%float) ∧
      (mbase m ∉ dom nb_store) ∧
      mbase m ≠ vbase nb_x ∧
      (∀ v, NdArray nb_y = NdArray v ∨ NdArray nb_z = NdArray v →
            mbase m ≠ vbase v)
  | Raise _ s' =>
      preserves nb_store s' ∧
      ints_of s' nb_x = Some [2; 3] ∧
      operand_value s' (NdArray nb_y) = Some (Vec1 [1; -1.5]%float) ∧
      operand_value s' (NdArray nb_z) = Some (Vec1 [0.5; 2]%float)
  end.
Proof.
  apply (predict_over_time_frame nb_store nb_x (NdArray nb_y) (NdArray nb_z)
           true [2; 3] (Vec1 [1; -1.5]%float) (Vec1 [0.5; 2]%float));
    vm_compute; reflexivity.
Defined.

Lemma broadcast_dims_same (n : nat) (rdim : option nat) :
  broadcast_dims [Some n; Some n; Some n; None; rdim]
  = broadcast_dim (Some n) rdim.
Proof.
  unfold broadcast_dims. cbn [foldl].
  assert (broadcast_dim (Some n) (Some n) = inr (Some n)) as Hnn
    by (cbn [broadcast_dim]; by rewrite Nat.eqb_refl).
  change (broadcast_dim None (Some n)) with (@inr exn (option nat) (Some n)).
  cbv beta iota. rewrite Hnn. cbv beta iota. rewrite Hnn. cbv beta iota.
  change (broadcast_dim (Some n) None) with (@inr exn (option nat) (Some n)).
  by cbv beta iota.
Qed.

Lemma fast_entry_own_row (xs : list Z) (ys zs : list float) (overlay : bool)
    (i t : nat) :
  length ys = length xs → length zs = length xs → (i < length xs)%nat →
  fast_entry xs (Vec1 ys) (Vec1 zs) overlay i t
  = kernel_value (spec_adj overlay) (Z.of_nat t) (xs !!! i) (ys !!! i) (zs !!! i).
Proof.
  intros Hy Hz Hi. unfold fast_entry. rewrite bindex_lt by done.
  rewrite (nd_get_lookup ys i (ys !!! i)), (nd_get_lookup zs i (zs !!! i));
    [done | |]; apply list_lookup_lookup_total_lt; lia.
Qed.

Lemma fast_entry_stretched (xs : list Z) (ys zs : list float) (overlay : bool)
    (i t : nat) :
  length xs = 1%nat → length ys = 1%nat → length zs = 1%nat →
  fast_entry xs (Vec1 ys) (Vec1 zs) overlay i t
  = kernel_value (spec_adj overlay) (Z.of_nat t)
      (xs !!! 0%nat) (ys !!! 0%nat) (zs !!! 0%nat).
Proof.
  intros Hx Hy Hz. unfold fast_entry. rewrite Hx.
  destruct ys as [|y0 [|? ?]]; try done.
  destruct zs as [|z0 [|? ?]]; done.
Qed.

(** C8, as the code has it: for the generalized ufunc the number of
    columns is not fixed at 15 but is the core length [s] of the fifth
    argument, its length if it has one dimension and the length of its
    last axis if it has two; the entries are the kernel's values for
    [t] below [s].  With [x], [y], [z] of length [N] the result has
    shape [(N, s)] when the fifth argument has one dimension, or two
    with a leading dimension of [N] or 1.  Another leading dimension [M]
    takes part in the broadcast: for [N = 1] the result has shape
    [(M, s)], every row computed from [x[0]], [y[0]], [z[0]]; otherwise
    the call raises [ValueError]. *)
Theorem fast_predict_over_time_columns (uninit : loc → nat → float) (s : store)
    (x y z : view) (overlay : bool) (res : farray)
    (xs : list Z) (ys zs : list float) :
  ints_of s x = Some xs →
  floats_of s y = Some ys →
  floats_of s z = Some zs →
  length ys = length xs →
  length zs = length xs →
  observe (fast_predict_over_time uninit x (NdArray y) (NdArray z) overlay res s) =
    (let n := length xs in
     let cols := core_dim res in
     let own :=
       matrix_data n cols
         (λ i t, kernel_value (spec_adj overlay) (Z.of_nat t)
                   (xs !!! i) (ys !!! i) (zs !!! i)) in
     match farray_dim res with
     | None => Returned n cols own
     | Some m =>
         if (m =? n)%nat || (m =? 1)%nat then Returned n cols own
         else if (n =? 1)%nat then
           Returned m cols
             (matrix_data m cols
                (λ _ t, kernel_value (spec_adj overlay) (Z.of_nat t)
                          (xs !!! 0%nat) (ys !!! 0%nat) (zs !!! 0%nat)))
         else Raised ValueError
     end) ∧
  (∀ t xi yi zi,
     0 ≤ t < 2 ^ 62 →
     kernel_value (spec_adj overlay) t xi yi zi = spec_entry overlay t xi yi zi).
Proof.
  intros Hx Hy Hz Hly Hlz. split; [|intros; by apply kernel_value_spec_entry].
  rewrite (fast_predict_over_time_observe uninit s x _ _ overlay res xs
             (Vec1 ys) (Vec1 zs) Hx (operand_value_array _ _ _ Hy)
             (operand_value_array _ _ _ Hz)).
  unfold fast_model. cbn [nd_dim]. rewrite Hly, Hlz, broadcast_dims_same.
  cbv zeta.
  assert (matrix_data (length xs) (core_dim res)
            (fast_entry xs (Vec1 ys) (Vec1 zs) overlay)
          = matrix_data (length xs) (core_dim res)
              (λ i t, kernel_value (spec_adj overlay) (Z.of_nat t)
                        (xs !!! i) (ys !!! i) (zs !!! i))) as Hown.
  { apply matrix_data_ext. intros i t Hi _. by apply fast_entry_own_row. }
  destruct (farray_dim res) as [m|]; cbn [broadcast_dim default];
    [|unfold id; by rewrite Hown].
  rewrite (Nat.eqb_sym m (length xs)).
  destruct (Nat.eqb_spec (length xs) m) as [Hnm|Hnm];
    [cbn [orb default]; unfold id; by rewrite Hown|].
  destruct (Nat.eqb_spec (length xs) 1) as [Hn1|Hn1].
  - destruct (Nat.eqb_spec m 1) as [Hm1|Hm1]; [lia|].
    cbn [orb default]. unfold id. f_equal.
    apply matrix_data_ext. intros i t _ _.
    apply fast_entry_stretched; lia.
  - destruct (Nat.eqb_spec m 1) as [Hm1|Hm1]; cbn [orb default]; [|done].
    unfold id. by rewrite Hown.
Qed.

Lemma fast_predict_over_time_columns_witness :
  observe (fast_predict_over_time (λ _ _, nan) nb_x (NdArray nb_y) (NdArray nb_z)
             true (Arr1 (View 3%positive 0 1 4)) nb_store) =
    (let n := length [2; 3] in
     let cols := core_dim (Arr1 (View 3%positive 0 1 4)) in
     let own :=
       matrix_data n cols
         (λ i t, kernel_value (spec_adj true) (Z.of_nat t)
                   ([2; 3] !!! i) ([1; -1.5]%float !!! i)
                   ([0.5; 2]%float !!! i)) in
     match farray_dim (Arr1 (View 3%positive 0 1 4)) with
     | None => Returned n cols own
     | Some m =>
         if (m =? n)%nat || (m =? 1)%nat then Returned n cols own
         else if (n =? 1)%nat then
           Returned m cols
             (matrix_data m cols
                (λ _ t, kernel_value (spec_adj true) (Z.of_nat t)
                          ([2; 3] !!! 0%nat) ([1; -1.5]%float !!! 0%nat)
                          ([0.5; 2]%float !!! 0%nat)))
         else Raised ValueError
     end) ∧
  (∀ t xi yi zi,
     0 ≤ t < 2 ^ 62 →
     kernel_value (spec_adj true) t xi yi zi = spec_entry true t xi yi zi).
Proof.
  apply (fast_predict_over_time_columns (λ _ _, nan) nb_store nb_x nb_y nb_z
           true (Arr1 (View 3%positive 0 1 4))
           [2; 3] [1; -1.5]%float [0.5; 2]%float);
    vm_compute; reflexivity.
Defined.

(** C8 as stated fails for a fifth argument of shape [(5, 6)]: with [x],
    [y], [z] of length 1 the result has five rows, not one, and with
    [x], [y], [z] of length 2 the call raises [ValueError] and there is
    no result. *)
Lemma fast_predict_over_time_columns_counterexample :
  observe (fast_predict_over_time (λ _ _, nan) one_x (NdArray one_y)
             (NdArray one_z) false (Arr2 (Matrix 3%positive 5 6)) nb_store)
    = Returned 5 6
        (matrix_data 5 6
           (λ _ t, kernel_value 1 (Z.of_nat t) 2 1 0.5)) ∧
  observe (fast_predict_over_time (λ _ _, nan) nb_x (NdArray nb_y)
             (NdArray nb_z) false (Arr2 (Matrix 3%positive 5 6)) nb_store)
    = Raised ValueError.
Proof. split; vm_compute; reflexivity. Qed.

(** C9: the fifth argument of the generalized ufunc gives its shape and
    nothing else: calls whose fifth arguments have the same shape show
    the same outcome whatever those arrays hold, no buffer of the
    caller's store is written, that of the fifth argument included, and
    the result lives in a buffer that was not in the store. *)
Theorem fast_predict_over_time_dummy (u1 u2 : loc → nat → float) (s1 s2 : store)
    (x : view) (y z : operand) (overlay : bool) (res1 res2 : farray)
    (xs : list Z) (yv zv : ndvalue) :
  ints_of s1 x = Some xs → ints_of s2 x = Some xs →
  operand_value s1 y = Some yv → operand_value s2 y = Some yv →
  operand_value s1 z = Some zv → operand_value s2 z = Some zv →
  farray_dim res1 = farray_dim res2 →
  core_dim res1 = core_dim res2 →
  observe (fast_predict_over_time u1 x y z overlay res1 s1)
    = observe (fast_predict_over_time u2 x y z overlay res2 s2) ∧
  match fast_predict_over_time u1 x y z overlay res1 s1 with
  | Ok m s' =>
      preserves s1 s' ∧ (mbase m ∉ dom s1) ∧
      (farray_base res1 ∈ dom s1 → mbase m ≠ farray_base res1)
  | Raise _ s' => s' = s1
  end.
Proof.
  intros Hx1 Hx2 Hy1 Hy2 Hz1 Hz2 Hd Hc. split.
  - rewrite (fast_predict_over_time_observe u1 s1 x y z overlay res1 xs yv zv
               Hx1 Hy1 Hz1).
    rewrite (fast_predict_over_time_observe u2 s2 x y z overlay res2 xs yv zv
               Hx2 Hy2 Hz2).
    by rewrite Hd, Hc.
  - destruct (broadcast_dims [Some (vlen x); operand_dim y; operand_dim z; None;
                              farray_dim res1]) as [e|shape] eqn:E.
    + unfold fast_predict_over_time, bind at 1. by rewrite E.
    + pose proof E as E'.
      apply broadcast_dims_inv in E' as (n & -> & Hxn & Hfy & Hfz).
      rewrite <- (ints_of_length _ _ _ Hx1) in Hxn.
      rewrite (operand_dim_value _ _ _ Hy1) in Hfy.
      rewrite (operand_dim_value _ _ _ Hz1) in Hfz.
      rewrite (fast_predict_over_time_run u1 s1 x y z overlay res1 xs yv zv n
                 Hx1 Hy1 Hz1 Hxn (fits_dim _ _ Hfy) (fits_dim _ _ Hfz) E).
      cbn [mbase]. split; [apply preserves_insert_new, fresh_dom_new|].
      split; [apply fresh_dom_new|].
      intros Hin Heq. apply (fresh_dom_new s1). by rewrite Heq.
Qed.

Lemma fast_predict_over_time_dummy_witness :
  observe (fast_predict_over_time (λ _ _, nan) nb_x (NdArray nb_y) (NdArray nb_z)
             true nb_res nb_store)
    = observe (fast_predict_over_time (λ _ _, 0%float) nb_x (NdArray nb_y)
                 (NdArray nb_z) true nb_res nb_store_dirty) ∧
  match fast_predict_over_time (λ _ _, nan) nb_x (NdArray nb_y) (NdArray nb_z)
          true nb_res nb_store with
  | Ok m s' =>
      preserves nb_store s' ∧ (mbase m ∉ dom nb_store) ∧
      (farray_base nb_res ∈ dom nb_store → mbase m ≠ farray_base nb_res)
  | Raise _ s' => s' = nb_store
  end.
Proof.
  apply (fast_predict_over_time_dummy (λ _ _, nan) (λ _ _, 0%float)
           nb_store nb_store_dirty nb_x (NdArray nb_y) (NdArray nb_z) true
           nb_res nb_res [2; 3] (Vec1 [1; -1.5]%float) (Vec1 [0.5; 2]%float));
    vm_compute; reflexivity.
Defined.

(** C10, as the code has it: with [x] of length [N], the call returns a
    matrix of [N] rows and 15 columns, [y] and [z] broadcast against [x],
    exactly when each of [y] and [z] is a scalar, a sequence of length 1
    or a sequence of length [N]; with any other length it raises
    [ValueError]. *)
Theorem predict_over_time_rows_broadcast (s : store) (x : view) (y z : operand)
    (overlay : bool) (xs : list Z) (yv zv : ndvalue) :
  ints_of s x = Some xs →
  operand_value s y = Some yv →
  operand_value s z = Some zv →
  observe (predict_over_time x y z overlay s) =
  if fits (length xs) yv && fits (length xs) zv
  then Returned (length xs) 15
         (matrix_data (length xs) 15
            (λ i t, spec_entry overlay (Z.of_nat t) (xs !!! i)
                      (nd_get yv i) (nd_get zv i)))
  else Raised ValueError.
Proof.
  intros Hx Hy Hz.
  rewrite (predict_over_time_observe s x y z xs yv zv Hx Hy Hz).
  apply predict_model_cases.
Qed.

Lemma predict_over_time_rows_broadcast_witness :
  observe (predict_over_time nb_x (NdArray short_y) (PyFloat 0.25) true long_store) =
  if fits 2 (Vec1 [1%float]) && fits 2 (Scalar0 0.25)
  then Returned 2 15
         (matrix_data 2 15
            (λ i t, spec_entry true (Z.of_nat t) ([2; 3] !!! i)
                      (nd_get (Vec1 [1%float]) i) (nd_get (Scalar0 0.25) i)))
  else Raised ValueError.
Proof.
  apply (predict_over_time_rows_broadcast long_store nb_x (NdArray short_y)
           (PyFloat 0.25) true [2; 3] (Vec1 [1%float]) (Scalar0 0.25));
    vm_compute; reflexivity.
Defined.

(** C10 as stated fails: with [x] of length two and [y] of length three
    the call raises [ValueError]; there is no result, of two rows or of
    any other shape. *)
Lemma predict_over_time_rows_counterexample :
  observe (predict_over_time nb_x (NdArray long_y) (PyFloat 0) false long_store)
    = Raised ValueError ∧
  ¬ ∃ m s',
      predict_over_time nb_x (NdArray long_y) (PyFloat 0) false long_store
        = Ok m s' ∧ mrows m = 2%nat.
Proof.
  split; [vm_compute; reflexivity|].
  intros (m & s' & H & _). vm_compute in H. discriminate H.
Qed.

(** * Further properties of the notebook's code *)

(** ** The generalized ufunc under broadcasting *)

Lemma dim_fits_fits (n : nat) (a : ndvalue) :
  fits n a = true → dim_fits n (nd_dim a).
Proof.
  unfold dim_fits. destruct a as [v|d]; [auto|].
  intros [H|H]%fits_length; simpl; rewrite H; auto.
Qed.

Lemma broadcast_dim_step (k n : nat) (d : option nat) :
  k = n ∨ k = 1%nat → dim_fits n d →
  ∃ k', broadcast_dim (Some k) d = inr (Some k') ∧
        (k' = n ∨ k' = 1%nat) ∧
        (k = n ∨ d = Some n → k' = n).
Proof.
  unfold dim_fits. intros Hk Hd. destruct d as [m|]; cbn [broadcast_dim].
  - destruct (Nat.eqb_spec k m) as [->|Hkm].
    { exists m. split; [done|].
      split; [destruct Hd as [?|[?|?]]; simplify_eq; auto|].
      intros [?|?]; by simplify_eq. }
    destruct (Nat.eqb_spec k 1) as [->|Hk1].
    { exists m. split; [done|].
      split; [destruct Hd as [?|[?|?]]; simplify_eq; auto|].
      intros [?|?]; simplify_eq; [|done].
      destruct Hd as [?|[?|?]]; by simplify_eq. }
    destruct (Nat.eqb_spec m 1) as [->|Hm1].
    { exists k. split; [done|]. split; [done|].
      intros [?|?]; simplify_eq; [done|]. lia. }
    destruct Hk as [->|?]; [|done].
    destruct Hd as [?|[?|?]]; by simplify_eq.
  - exists k. split; [done|]. split; [done|]. by intros [?|?].
Qed.

Lemma broadcast_dims_fits (k n : nat) (dy dz dr : option nat) :
  k = n ∨ k = 1%nat →
  dim_fits n dy → dim_fits n dz → dim_fits n dr →
  k = n ∨ dy = Some n ∨ dz = Some n ∨ dr = Some n →
  broadcast_dims [Some k; dy; dz; None; dr] = inr (Some n).
Proof.
  intros Hk Hy Hz Hr Hn. unfold broadcast_dims. cbn [foldl].
  change (broadcast_dim None (Some k)) with (@inr exn (option nat) (Some k)).
  cbv beta iota.
  destruct (broadcast_dim_step k n dy Hk Hy) as (k1 & -> & Hk1 & Hn1).
  cbv beta iota.
  destruct (broadcast_dim_step k1 n dz Hk1 Hz) as (k2 & -> & Hk2 & Hn2).
  cbv beta iota.
  change (broadcast_dim (Some k2) None) with (@inr exn (option nat) (Some k2)).
  cbv beta iota.
  destruct (broadcast_dim_step k2 n dr Hk2 Hr) as (k3 & -> & Hk3 & Hn3).
  do 2 f_equal. apply Hn3.
  destruct Hn as [H|[H|[H|H]]].
  - left. apply Hn2. left. apply Hn1. by left.
  - left. apply Hn2. left. apply Hn1. by right.
  - left. apply Hn2. by right.
  - by right.
Qed.

Lemma fast_model_fits (xs : list Z) (yv zv : ndvalue) (overlay : bool)
    (rdim : option nat) (cols n : nat) :
  length xs = n ∨ length xs = 1%nat →
  fits n yv = true → fits n zv = true → dim_fits n rdim →
  length xs = n ∨ nd_dim yv = Some n ∨ nd_dim zv = Some n ∨ rdim = Some n →
  fast_model xs yv zv overlay rdim cols =
  Returned n cols (matrix_data n cols (fast_entry xs yv zv overlay)).
Proof.
  intros Hx Hy%dim_fits_fits Hz%dim_fits_fits Hr Hn. unfold fast_model.
  by rewrite (broadcast_dims_fits _ n).
Qed.

Lemma nd_get_long (ys : list float) (i : nat) :
  length ys ≠ 1%nat → nd_get (Vec1 ys) i = ys !!! i.
Proof. destruct ys as [|a [|b l]]; simpl; [done | lia | done]. Qed.

Lemma broadcast_dims_mismatch (n m : nat) (dy dz : option nat) :
  dim_fits n dy → dim_fits n dz →
  m ≠ n → m ≠ 1%nat → n ≠ 1%nat →
  broadcast_dims [Some n; dy; dz; None; Some m] = inl ValueError.
Proof.
  intros Hy Hz Hmn Hm1 Hn1. unfold broadcast_dims. cbn [foldl].
  change (broadcast_dim None (Some n)) with (@inr exn (option nat) (Some n)).
  cbv beta iota.
  destruct (broadcast_dim_step n n dy (or_introl eq_refl) Hy)
    as (k1 & -> & _ & Hk1).
  rewrite (Hk1 (or_introl eq_refl)). cbv beta iota.
  destruct (broadcast_dim_step n n dz (or_introl eq_refl) Hz)
    as (k2 & -> & _ & Hk2).
  rewrite (Hk2 (or_introl eq_refl)). cbv beta iota.
  cbn [broadcast_dim].
  destruct (Nat.eqb_spec n m) as [?|_]; [by subst|].
  destruct (Nat.eqb_spec n 1) as [?|_]; [done|].
  by destruct (Nat.eqb_spec m 1) as [?|_].
Qed.

(** X1: the generalized ufunc and the array code agree beyond arguments
    of equal length: whenever [y] and [z] each fit the length of [x]
    (scalar, length 1 or that length) and the fifth argument has core
    length 15 and a fitting leading dimension, both show the same
    matrix. *)
Theorem fast_agrees_when_x_has_loop_length (uninit : loc → nat → float)
    (s : store) (x : view) (y z : operand) (overlay : bool) (res : farray)
    (xs : list Z) (yv zv : ndvalue) :
  ints_of s x = Some xs →
  operand_value s y = Some yv →
  operand_value s z = Some zv →
  fits (length xs) yv = true →
  fits (length xs) zv = true →
  dim_fits (length xs) (farray_dim res) →
  core_dim res = 15%nat →
  observe (fast_predict_over_time uninit x y z overlay res s)
  = observe (predict_over_time x y z overlay s).
Proof.
  intros Hx Hy Hz Hfy Hfz Hr Hc.
  rewrite (fast_predict_over_time_observe uninit s x y z overlay res xs yv zv
             Hx Hy Hz).
  rewrite (predict_over_time_observe s x y z xs yv zv Hx Hy Hz).
  rewrite (fast_model_fits xs yv zv overlay _ _ (length xs)); auto.
  rewrite predict_model_fits, Hc by done. f_equal.
  apply matrix_data_ext. intros i t Hi Ht.
  apply fast_entry_model_entry; [done | lia].
Qed.

Lemma fast_agrees_when_x_has_loop_length_witness :
  observe (fast_predict_over_time (λ _ _, nan) nb_x (NdArray short_y)
             (PyFloat 0.25) true nb_res nb_store)
  = observe (predict_over_time nb_x (NdArray short_y) (PyFloat 0.25) true nb_store).
Proof.
  apply (fast_agrees_when_x_has_loop_length (λ _ _, nan) nb_store nb_x
           (NdArray short_y) (PyFloat 0.25) true nb_res
           [2; 3] (Vec1 [1%float]) (Scalar0 0.25));
    try (vm_compute; reflexivity).
  right. left. reflexivity.
Defined.

(** X2: the two are not interchangeable when [x] is the short argument.
    Take [x] of length 1, [y] of another length [M], [z] fitting [M] (a
    scalar, or of length 1 or [M]) and a fifth argument with one
    dimension, or two and a leading dimension of [M] or 1.  Then the
    array code raises [ValueError] (its output has one row), while the
    generalized ufunc stretches [x] and returns [M] rows computed from
    [x[0]]. *)
Theorem fast_stretches_x_where_direct_raises (uninit : loc → nat → float)
    (s : store) (x y : view) (z : operand) (overlay : bool) (res : farray)
    (x0 : Z) (ys : list float) (zv : ndvalue) :
  ints_of s x = Some [x0] →
  floats_of s y = Some ys →
  length ys ≠ 1%nat →
  operand_value s z = Some zv →
  fits (length ys) zv = true →
  dim_fits (length ys) (farray_dim res) →
  observe (predict_over_time x (NdArray y) z overlay s) = Raised ValueError ∧
  observe (fast_predict_over_time uninit x (NdArray y) z overlay res s)
  = Returned (length ys) (core_dim res)
      (matrix_data (length ys) (core_dim res)
         (λ i t, kernel_value (spec_adj overlay) (Z.of_nat t) x0
                   (ys !!! i) (nd_get zv i))).
Proof.
  intros Hx Hy Hlen Hz Hfz Hr.
  pose proof (operand_value_array _ _ _ Hy) as Hy'. split.
  - rewrite (predict_over_time_observe s x _ z [x0] _ zv Hx Hy' Hz).
    rewrite predict_model_cases. cbn [length fits].
    by rewrite (proj2 (Nat.eqb_neq _ _) Hlen).
  - rewrite (fast_predict_over_time_observe uninit s x _ z overlay res
               [x0] _ zv Hx Hy' Hz).
    rewrite (fast_model_fits [x0] (Vec1 ys) zv overlay _ _ (length ys));
      [| by right | by apply fits_same_length | done | done
       | right; by left].
    f_equal. apply matrix_data_ext. intros i t Hi Ht.
    unfold fast_entry. by rewrite nd_get_long.
Qed.

Lemma fast_stretches_x_where_direct_raises_witness :
  observe (predict_over_time ex_x (NdArray long_y) (PyFloat 0.25) true long_store)
    = Raised ValueError ∧
  observe (fast_predict_over_time (λ _ _, nan) ex_x (NdArray long_y)
             (PyFloat 0.25) true (Arr1 (View 2%positive 0 1 3)) long_store)
  = Returned 3 3
      (matrix_data 3 3
         (λ i t, kernel_value (spec_adj true) (Z.of_nat t) 2
                   ([1; 0.5; 7]%float !!! i) (nd_get (Scalar0 0.25) i))).
Proof.
  apply (fast_stretches_x_where_direct_raises (λ _ _, nan) long_store ex_x
           long_y (PyFloat 0.25) true (Arr1 (View 2%positive 0 1 3))
           2 [1; 0.5; 7]%float (Scalar0 0.25));
    try (vm_compute; reflexivity).
  - simpl. lia.
  - left. reflexivity.
Defined.

(** X3: a fifth argument whose leading dimension is neither 1 nor the
    length of [x] makes the call raise [ValueError] before anything is
    allocated or written: the store is the one the call started in. *)
Theorem fast_leading_dimension_mismatch (uninit : loc → nat → float)
    (s : store) (x : view) (y z : operand) (overlay : bool) (res : farray)
    (m : nat) :
  dim_fits (vlen x) (operand_dim y) →
  dim_fits (vlen x) (operand_dim z) →
  farray_dim res = Some m →
  m ≠ vlen x → m ≠ 1%nat → vlen x ≠ 1%nat →
  fast_predict_over_time uninit x y z overlay res s = Raise ValueError s.
Proof.
  intros Hy Hz Hr Hmn Hm1 Hn1. unfold fast_predict_over_time, bind at 1.
  by rewrite Hr, broadcast_dims_mismatch.
Qed.

Lemma fast_leading_dimension_mismatch_witness :
  fast_predict_over_time (λ _ _, nan) nb_x (NdArray nb_y) (NdArray nb_z) true
    (Arr2 (Matrix 3%positive 5 6)) nb_store
  = Raise ValueError nb_store.
Proof.
  apply (fast_leading_dimension_mismatch (λ _ _, nan) nb_store nb_x
           (NdArray nb_y) (NdArray nb_z) true (Arr2 (Matrix 3%positive 5 6)) 5).
  - right. left. reflexivity.
  - right. left. reflexivity.
  - reflexivity.
  - simpl. lia.
  - lia.
  - simpl. lia.
Defined.

(** X4: for the generalized ufunc too, [overlay = True] multiplies every
    entry of the [overlay = False] result by 1.5, whatever the shapes;
    an error is the same error. *)
Theorem fast_overlay_scales (uninit : loc → nat → float) (s : store)
    (x : view) (y z : operand) (res : farray)
    (xs : list Z) (yv zv : ndvalue) :
  ints_of s x = Some xs →
  operand_value s y = Some yv →
  operand_value s z = Some zv →
  observe (fast_predict_over_time uninit x y z true res s) =
  match observe (fast_predict_over_time uninit x y z false res s) with
  | Returned r c d => Returned r c ((λ v, 1.5 * v)%float <$> d)
  | Raised e => Raised e
  end.
Proof.
  intros Hx Hy Hz.
  rewrite !(fast_predict_over_time_observe uninit s x y z _ res xs yv zv
              Hx Hy Hz).
  unfold fast_model. destruct (broadcast_dims _) as [e|shape]; [done|].
  cbv zeta. rewrite fmap_matrix_data. f_equal.
  apply matrix_data_ext. intros i t _ _.
  unfold fast_entry, kernel_value. by rewrite mul_one_l.
Qed.

Lemma fast_overlay_scales_witness :
  observe (fast_predict_over_time (λ _ _, nan) nb_x (NdArray nb_y)
             (NdArray nb_z) true nb_res nb_store) =
  match observe (fast_predict_over_time (λ _ _, nan) nb_x (NdArray nb_y)
                   (NdArray nb_z) false nb_res nb_store) with
  | Returned r c d => Returned r c ((λ v, 1.5 * v)%float <$> d)
  | Raised e => Raised e
  end.
Proof.
  apply (fast_overlay_scales (λ _ _, nan) nb_store nb_x (NdArray nb_y)
           (NdArray nb_z) nb_res [2; 3] (Vec1 [1; -1.5]%float)
           (Vec1 [0.5; 2]%float));
    vm_compute; reflexivity.
Defined.

(** ** Order of the loops *)

Lemma fill_columns_cover (n cols : nat) (col : nat → exn + list float)
    (g : nat → nat → float) (ts : list nat) :
  (∀ t, t ∈ ts ↔ (t < cols)%nat) →
  (∀ t, (t < cols)%nat →
        ∃ c, col t = inr c ∧ length c = n ∧
             ∀ i, (i < n)%nat → c !! i = Some (g i t)) →
  fill_columns cols col ts (replicate (n * cols) 0%float)
  = inr (matrix_data n cols g).
Proof.
  intros Hts Hcol.
  destruct (fill_columns_lookup n cols col
              (λ t, match col t with inr c => c | inl _ => [] end)
              ts (replicate (n * cols) 0%float))
    as (d' & Hrun & Hlen & Hd').
  { intros t Ht%Hts.
    destruct (Hcol t Ht) as (c & -> & Hc & _). done. }
  { by rewrite length_replicate. }
  rewrite Hrun. f_equal. apply matrix_data_unique; [done|].
  intros i t Hi Ht. rewrite Hd' by done.
  rewrite decide_True by (by apply Hts).
  destruct (Hcol t Ht) as (c & -> & _ & Hc). by apply Hc.
Qed.

Lemma fits_cases (n : nat) (yv zv : ndvalue) :
  (fits n yv = true ∧ fits n zv = true) ∨ fits n yv && fits n zv = false.
Proof. destruct (fits n yv), (fits n zv); auto. Qed.

(** X5: the time steps of [predict_over_time] are independent of one
    another: started on the freshly zeroed [out], the loop body run over
    the fifteen time steps in any order ends in the same store, with the
    same outcome, as the loop of the source. *)
Theorem predict_time_steps_any_order (s s1 : store) (x : view) (y z : operand)
    (out : matrix) (xs : list Z) (yv zv : ndvalue) (ts : list nat) :
  ints_of s x = Some xs →
  operand_value s y = Some yv →
  operand_value s z = Some zv →
  np_zeros (vlen x) 15 s = Ok out s1 →
  ts ≡ₚ range 15 →
  for_each ts (predict_body x y z out) s1
  = for_each (range 15) (predict_body x y z out) s1.
Proof.
  intros Hx Hy Hz Hz0 Hperm.
  unfold np_zeros, alloc, bind, ret in Hz0. injection Hz0 as <- <-.
  rewrite <- (ints_of_length _ _ _ Hx).
  rewrite !(predict_loop_run s x y z xs yv zv Hx Hy Hz).
  destruct (fits_cases (length xs) yv zv) as [[Hfy Hfz]|Hunfit].
  - rewrite (fill_columns_cover (length xs) 15 _
               (λ i t, spec_value (Z.of_nat t) (xs !!! i)
                         (nd_get yv i) (nd_get zv i)) ts).
    + rewrite (fill_columns_range (length xs) 15 _
                 (λ i t, spec_value (Z.of_nat t) (xs !!! i)
                           (nd_get yv i) (nd_get zv i))); [done|].
      intros t _. by apply column_fits.
    + intros t. rewrite Hperm. unfold range. rewrite elem_of_seq. lia.
    + intros t _. by apply column_fits.
  - pose proof (Permutation_length Hperm) as Hlen.
    destruct ts as [|t ts]; [done|].
    cbn [range seq fill_columns].
    by rewrite !(column_unfit (length xs) _ xs yv zv eq_refl Hunfit).
Qed.

Lemma predict_time_steps_any_order_witness :
  for_each (rev (range 15))
    (predict_body nb_x (NdArray nb_y) (NdArray nb_z)
       (Matrix 4%positive 2 15))
    (<[4%positive := FloatBuf (replicate 30 0%float)]> nb_store)
  = for_each (range 15)
      (predict_body nb_x (NdArray nb_y) (NdArray nb_z)
         (Matrix 4%positive 2 15))
      (<[4%positive := FloatBuf (replicate 30 0%float)]> nb_store).
Proof.
  apply (predict_time_steps_any_order nb_store _ nb_x (NdArray nb_y)
           (NdArray nb_z) _ [2; 3] (Vec1 [1; -1.5]%float) (Vec1 [0.5; 2]%float));
    try (vm_compute; reflexivity).
  symmetry. apply Permutation_rev.
Defined.

(** X6: the loop steps of the generalized ufunc are independent too:
    started on the freshly allocated output, the kernel run over the rows
    in any order ends in the same store as the run in index order. *)
Theorem fast_rows_any_order (uninit : loc → nat → float) (s s1 : store)
    (x : view) (y z : operand) (overlay : bool) (res : farray) (out : matrix)
    (xs : list Z) (yv zv : ndvalue) (n : nat) (rows : list nat) :
  ints_of s x = Some xs →
  operand_value s y = Some yv →
  operand_value s z = Some zv →
  length xs = n ∨ length xs = 1%nat →
  fits n yv = true →
  fits n zv = true →
  np_empty uninit n (core_dim res) s = Ok out s1 →
  rows ≡ₚ range n →
  for_each rows (fast_row x y z overlay res out) s1
  = for_each (range n) (fast_row x y z overlay res out) s1.
Proof.
  intros Hx Hy Hz Hxn Hfy Hfz He Hperm.
  unfold np_empty in He. injection He as <- <-.
  destruct (fast_rows_run s x y z overlay res xs yv zv n Hx Hy Hz Hxn Hfy Hfz
              rows (uninit (fresh (dom s)) <$> seq 0 (n * core_dim res)))
    as (d1 & -> & Hlen1 & Hd1).
  { intros i. rewrite Hperm. unfold range. rewrite elem_of_seq. lia. }
  { by rewrite length_fmap, length_seq. }
  destruct (fast_rows_run s x y z overlay res xs yv zv n Hx Hy Hz Hxn Hfy Hfz
              (range n) (uninit (fresh (dom s)) <$> seq 0 (n * core_dim res)))
    as (d2 & -> & Hlen2 & Hd2).
  { intros i. unfold range. rewrite elem_of_seq. lia. }
  { by rewrite length_fmap, length_seq. }
  do 3 f_equal.
  rewrite (matrix_data_unique n (core_dim res) (fast_entry xs yv zv overlay) d1),
          (matrix_data_unique n (core_dim res) (fast_entry xs yv zv overlay) d2);
    try done.
  - intros i t Hi Ht. rewrite Hd2 by done.
    rewrite decide_True; [done|]. unfold range. rewrite elem_of_seq. lia.
  - intros i t Hi Ht. rewrite Hd1 by done.
    rewrite decide_True; [done|]. rewrite Hperm. unfold range.
    rewrite elem_of_seq. lia.
Qed.

Lemma fast_rows_any_order_witness :
  for_each [1; 0]%nat
    (fast_row nb_x (NdArray nb_y) (NdArray nb_z) true nb_res
       (Matrix 4%positive 2 15))
    (<[4%positive := FloatBuf ((λ _, nan) <$> seq 0 30)]> nb_store)
  = for_each (range 2)
      (fast_row nb_x (NdArray nb_y) (NdArray nb_z) true nb_res
         (Matrix 4%positive 2 15))
      (<[4%positive := FloatBuf ((λ _, nan) <$> seq 0 30)]> nb_store).
Proof.
  apply (fast_rows_any_order (λ _ _, nan) nb_store _ nb_x (NdArray nb_y)
           (NdArray nb_z) true nb_res _ [2; 3] (Vec1 [1; -1.5]%float)
           (Vec1 [0.5; 2]%float) 2);
    try (vm_compute; reflexivity).
  - left. reflexivity.
  - apply perm_swap.
Defined.

(** ** Calls in sequence *)

(** X7: calls do not interfere.  A second call on the store the first
    one left returns the same values in a buffer of its own, and the
    matrix of the first call is still there, unchanged. *)
Theorem predict_over_time_twice (s : store) (x : view) (y z : operand)
    (overlay : bool) (xs : list Z) (yv zv : ndvalue) :
  ints_of s x = Some xs →
  operand_value s y = Some yv →
  operand_value s z = Some zv →
  fits (length xs) yv = true →
  fits (length xs) zv = true →
  ∃ m1 s1 m2 s2 d,
    predict_over_time x y z overlay s = Ok m1 s1 ∧
    predict_over_time x y z overlay s1 = Ok m2 s2 ∧
    mbase m1 ≠ mbase m2 ∧
    s1 !! mbase m1 = Some (FloatBuf d) ∧
    s2 !! mbase m1 = Some (FloatBuf d) ∧
    s2 !! mbase m2 = Some (FloatBuf d).
Proof.
  intros Hx Hy Hz Hfy Hfz.
  destruct (predict_over_time_fits s x y z xs yv zv overlay Hx Hy Hz Hfy Hfz)
    as (o1 & r1 & d1 & Ho1 & Hr1 & Hne1 & Hrun1).
  set (s1 := <[r1 := FloatBuf (matrix_data (length xs) 15
                                 (model_entry xs yv zv overlay))]>
               (<[o1 := FloatBuf d1]> s)) in *.
  assert (preserves s s1) as Hp.
  { apply (preserves_trans _ (<[o1 := FloatBuf d1]> s)).
    - by apply preserves_insert_new.
    - apply preserves_insert_new. rewrite dom_insert_L.
      intros [?%elem_of_singleton|?]%elem_of_union; done. }
  destruct (predict_over_time_fits s1 x y z xs yv zv overlay
              (preserves_ints_of _ _ _ _ Hp Hx)
              (preserves_operand_value _ _ _ _ Hp Hy)
              (preserves_operand_value _ _ _ _ Hp Hz) Hfy Hfz)
    as (o2 & r2 & d2 & Ho2 & Hr2 & Hne2 & Hrun2).
  assert (r1 ∈ dom s1) as Hin
    by (apply elem_of_dom; unfold s1; rewrite lookup_insert_eq; eauto).
  assert (r1 ≠ r2) as H12 by (intros ->; done).
  assert (r1 ≠ o2) as H1o by (intros ->; done).
  eexists _, _, _, _, _. split; [exact Hrun1|]. split; [exact Hrun2|].
  cbn [mbase]. split; [done|].
  split; [unfold s1; apply lookup_insert_eq|].
  split; [|apply lookup_insert_eq].
  rewrite lookup_insert_ne, lookup_insert_ne by done.
  unfold s1. apply lookup_insert_eq.
Qed.

Lemma predict_over_time_twice_witness :
  ∃ m1 s1 m2 s2 d,
    predict_over_time nb_x (NdArray nb_y) (NdArray nb_z) true nb_store = Ok m1 s1 ∧
    predict_over_time nb_x (NdArray nb_y) (NdArray nb_z) true s1 = Ok m2 s2 ∧
    mbase m1 ≠ mbase m2 ∧
    s1 !! mbase m1 = Some (FloatBuf d) ∧
    s2 !! mbase m1 = Some (FloatBuf d) ∧
    s2 !! mbase m2 = Some (FloatBuf d).
Proof.
  apply (predict_over_time_twice nb_store nb_x (NdArray nb_y) (NdArray nb_z)
           true [2; 3] (Vec1 [1; -1.5]%float) (Vec1 [0.5; 2]%float));
    vm_compute; reflexivity.
Defined.

(** ** Integer overflow *)

(** X8: where [14 * x[i]**2] is below [2^63], no [int64] operation of
    the call wraps: every entry is computed from the integer
    [t * x[i]**2] itself. *)
Theorem predict_over_time_without_overflow (s : store) (x y z : view)
    (overlay : bool) (xs : list Z) (ys zs : list float) :
  ints_of s x = Some xs →
  floats_of s y = Some ys →
  floats_of s z = Some zs →
  length ys = length xs →
  length zs = length xs →
  (∀ xi, xi ∈ xs → 14 * xi ^ 2 < 2 ^ 63) →
  ∃ m s',
    predict_over_time x (NdArray y) (NdArray z) overlay s = Ok m s' ∧
    ∀ i t xi yi zi,
      xs !! i = Some xi → ys !! i = Some yi → zs !! i = Some zi →
      (t < 15)%nat →
      getitem2 s' m i t
      = Some (spec_adj overlay
              * (float_of_Z (Z.of_nat t * xi ^ 2) + yi - 2 * zi
                 - float_of_Z (2 * Z.of_nat t)))%float.
Proof.
  intros Hx Hy Hz Hly Hlz Hsmall.
  destruct (predict_over_time_fits s x (NdArray y) (NdArray z) xs
              (Vec1 ys) (Vec1 zs) overlay Hx
              (operand_value_array _ _ _ Hy) (operand_value_array _ _ _ Hz)
              (fits_same_length _ _ Hly) (fits_same_length _ _ Hlz))
    as (out & res & d & _ & _ & _ & Hrun).
  eexists _, _. split; [exact Hrun|].
  intros i t xi yi zi Hxi Hyi Hzi Ht.
  rewrite getitem2_insert by (try done; by apply lookup_lt_Some in Hxi).
  unfold model_entry, spec_entry.
  rewrite (list_lookup_total_correct _ _ _ Hxi),
          (nd_get_lookup _ _ _ Hyi), (nd_get_lookup _ _ _ Hzi).
  pose proof (Hsmall xi (list_elem_of_lookup_2 _ _ _ Hxi)) as Hb.
  assert (0 ≤ xi ^ 2) by (rewrite Z.pow_2_r; apply Z.square_nonneg).
  rewrite spec_value_no_wrap; [done | lia | nia].
Qed.

Lemma predict_over_time_without_overflow_witness :
  ∃ m s',
    predict_over_time nb_x (NdArray nb_y) (NdArray nb_z) true nb_store = Ok m s' ∧
    ∀ i t xi yi zi,
      [2; 3] !! i = Some xi →
      [1; -1.5]%float !! i = Some yi →
      [0.5; 2]%float !! i = Some zi →
      (t < 15)%nat →
      getitem2 s' m i t
      = Some (spec_adj true
              * (float_of_Z (Z.of_nat t * xi ^ 2) + yi - 2 * zi
                 - float_of_Z (2 * Z.of_nat t)))%float.
Proof.
  apply (predict_over_time_without_overflow nb_store nb_x nb_y nb_z true
           [2; 3] [1; -1.5]%float [0.5; 2]%float).
  1-5: (vm_compute; reflexivity).
  intros xi Hin.
  apply elem_of_cons in Hin as [->|Hin]; [vm_compute; reflexivity|].
  apply elem_of_cons in Hin as [->|Hin]; [vm_compute; reflexivity|].
  by apply elem_of_nil in Hin.
Defined.

(** ** The kernel on its own *)

Section KernelOnView.

Variables (s0 : store) (out : view).
Variables (xi : Z) (yi zi : float) (overlay : bool) (dummy : view).
Hypothesis Hstride : vstride out ≠ 0.

Let adj : float := (if overlay then 1.5 else 1.0)%float.

Lemma view_index_inj (t t' : nat) :
  view_index out t = view_index out t' → t = t'.
Proof. unfold view_index. intros H. nia. Qed.

Lemma kernel_view_loop (ts : list nat) (d : list float) :
  (∀ t, t ∈ ts → 0 ≤ view_index out t < Z.of_nat (length d)) →
  ∃ d',
    for_each ts (λ t, setitem out t (kernel_value adj (Z.of_nat t) xi yi zi))
      (<[vbase out := FloatBuf d]> s0)
    = Ok tt (<[vbase out := FloatBuf d']> s0) ∧
    length d' = length d ∧
    (∀ t, t ∈ ts →
          lookupZ d' (view_index out t)
          = Some (kernel_value adj (Z.of_nat t) xi yi zi)) ∧
    (∀ j, (∀ t, t ∈ ts → view_index out t ≠ Z.of_nat j) → d' !! j = d !! j).
Proof.
  revert d. induction ts as [|t ts IH]; intros d Hb; cbn [for_each].
  - exists d. split; [done|]. split; [done|].
    split; [by intros t Ht%elem_of_nil | done].
  - pose proof (Hb t (list_elem_of_here _ _)) as Ht.
    unfold bind, setitem at 1. rewrite lookup_insert_eq.
    rewrite (proj2 (Z.leb_le _ _)), (proj2 (Z.ltb_lt _ _)) by lia.
    cbn [andb]. rewrite insert_insert_eq.
    destruct (IH (<[Z.to_nat (view_index out t) :=
                     kernel_value adj (Z.of_nat t) xi yi zi]> d))
      as (d' & Hrun & Hlen & Hin & Hout).
    { intros t' Ht'. rewrite length_insert.
      by apply Hb, list_elem_of_further. }
    exists d'. split; [exact Hrun|].
    split; [by rewrite Hlen, length_insert|]. split.
    + intros t' [->|Ht']%elem_of_cons; [|by apply Hin].
      destruct (decide (t ∈ ts)) as [Hts|Hts]; [by apply Hin|].
      unfold lookupZ. rewrite (proj2 (Z.ltb_ge _ _)) by lia.
      rewrite Hout.
      * apply list_lookup_insert_eq. lia.
      * intros t' Ht' Heq. rewrite Z2Nat.id in Heq by lia.
        apply view_index_inj in Heq. by subst.
    + intros j Hj. rewrite Hout.
      * apply list_lookup_insert_ne. intros Heq.
        apply (Hj t (list_elem_of_here _ _)). lia.
      * intros t' Ht'. by apply Hj, list_elem_of_further.
Qed.

End KernelOnView.

(** X9: the kernel, given any output view with a non-zero stride that
    lies inside its buffer, stores its value for time step [t] at
    position [t] of the view for every [t] below the length of the view,
    and changes nothing else: no other cell of that buffer, no other
    buffer.  The fifth parameter is not looked at. *)
Theorem kernel_fills_out (s : store) (out dummy : view) (d : list float)
    (xi : Z) (yi zi : float) (overlay : bool) :
  s !! vbase out = Some (FloatBuf d) →
  vstride out ≠ 0 →
  (∀ t, (t < vlen out)%nat → 0 ≤ view_index out t < Z.of_nat (length d)) →
  ∃ d',
    kernel xi yi zi overlay dummy out s
      = Ok tt (<[vbase out := FloatBuf d']> s) ∧
    length d' = length d ∧
    floats_of (<[vbase out := FloatBuf d']> s) out
      = Some ((λ t, kernel_value (spec_adj overlay) (Z.of_nat t) xi yi zi)
                <$> seq 0 (vlen out)) ∧
    ∀ j, (∀ t, (t < vlen out)%nat → view_index out t ≠ Z.of_nat j) →
         d' !! j = d !! j.
Proof.
  intros Hd Hstride Hb.
  destruct (kernel_view_loop s out xi yi zi overlay Hstride (range (vlen out)) d)
    as (d' & Hrun & Hlen & Hin & Hout).
  { intros t [_ Ht]%elem_of_seq. apply Hb. lia. }
  exists d'. split.
  { unfold kernel. rewrite <- Hrun. by rewrite insert_id. }
  split; [done|]. split.
  - unfold floats_of. rewrite lookup_insert_eq. unfold gather.
    apply mapM_Some_2, Forall2_fmap_r, Forall_Forall2_diag, Forall_forall.
    intros t Ht. by apply Hin.
  - intros j Hj. apply Hout. intros t [_ Ht]%elem_of_seq. apply Hj. lia.
Qed.

Lemma kernel_fills_out_witness :
  ∃ d',
    kernel 3 1 0.5 true nb_z nb_y nb_store
      = Ok tt (<[vbase nb_y := FloatBuf d']> nb_store) ∧
    length d' = length [1; 0.5; -1.5; 2]%float ∧
    floats_of (<[vbase nb_y := FloatBuf d']> nb_store) nb_y
      = Some ((λ t, kernel_value (spec_adj true) (Z.of_nat t) 3 1 0.5)
                <$> seq 0 (vlen nb_y)) ∧
    ∀ j, (∀ t, (t < vlen nb_y)%nat → view_index nb_y t ≠ Z.of_nat j) →
         d' !! j = [1; 0.5; -1.5; 2]%float !! j.
Proof.
  apply (kernel_fills_out nb_store nb_y nb_z [1; 0.5; -1.5; 2]%float
           3 1%float 0.5%float true).
  - vm_compute. reflexivity.
  - vm_compute. discriminate.
  - intros t Ht. unfold view_index. simpl in *. lia.
Defined.

(** ** The input cell *)

Lemma column_view_contents (b : loc) (rows cols j : nat) (d : list float) :
  length d = (rows * cols)%nat → (j < cols)%nat →
  gather d (View b (Z.of_nat j) (Z.of_nat cols) rows)
  = Some ((λ i, d !!! (i * cols + j)%nat) <$> seq 0 rows).
Proof.
  intros Hlen Hj. unfold gather. cbn [vlen].
  apply mapM_Some_2, Forall2_fmap_r, Forall_Forall2_diag, Forall_forall.
  intros i Hi%elem_of_seq.
  unfold view_index, lookupZ. cbn [voffset vstride].
  rewrite (proj2 (Z.ltb_ge _ _)) by lia.
  replace (Z.to_nat (Z.of_nat j + Z.of_nat i * Z.of_nat cols))
    with (i * cols + j)%nat by lia.
  apply list_lookup_lookup_total_lt. rewrite Hlen.
  apply index_bound; lia.
Qed.

(** X10: unpacking the transpose of an [(n, 2)] array [a] gives two
    views of length [n] into the buffer of [a] itself, no copies: [y]
    reads column 0 and [z] column 1, so [y[i] = a[i][0]] and
    [z[i] = a[i][1]].  An array with another number of columns cannot be
    unpacked into two names: [ValueError]. *)
Theorem unpack_transpose_columns (s : store) (a : matrix) (d : list float) :
  s !! mbase a = Some (FloatBuf d) →
  length d = (mrows a * mcols a)%nat →
  (mcols a ≠ 2%nat → unpack2 (transpose_rows a) = inl ValueError) ∧
  (mcols a = 2%nat →
   ∃ y z ys zs,
     unpack2 (transpose_rows a) = inr (y, z) ∧
     vbase y = mbase a ∧ vbase z = mbase a ∧
     floats_of s y = Some ys ∧ floats_of s z = Some zs ∧
     length ys = mrows a ∧ length zs = mrows a ∧
     ∀ i, (i < mrows a)%nat →
          ys !! i = getitem2 s a i 0 ∧ zs !! i = getitem2 s a i 1).
Proof.
  intros Hd Hlen. split.
  - intros Hc. unfold transpose_rows.
    destruct (mcols a) as [|[|[|c]]]; done.
  - intros Hc. unfold transpose_rows. rewrite Hc. cbn [seq fmap list_fmap unpack2].
    eexists _, _, _, _. split; [done|]. cbn [vbase].
    split; [done|]. split; [done|].
    unfold floats_of. cbn [vbase]. rewrite Hd.
    change (Z.of_nat 2) with (Z.of_nat (2%nat)).
    rewrite <- Hc.
    rewrite !column_view_contents by (try done; lia).
    split; [done|]. split; [done|].
    split; [by rewrite length_fmap, length_seq|].
    split; [by rewrite length_fmap, length_seq|].
    intros i Hi. unfold getitem2. rewrite Hd.
    rewrite (proj2 (Nat.ltb_lt _ _) Hi).
    rewrite !(proj2 (Nat.ltb_lt _ _)) by lia. cbn [andb].
    rewrite !list_lookup_fmap, !lookup_seq_lt by done. cbn [fmap option_fmap option_map].
    rewrite !list_lookup_lookup_total_lt; [done | |];
      rewrite Hlen; apply index_bound; lia.
Qed.

Lemma unpack_transpose_columns_witness :
  (mcols (Matrix 2%positive 2 2) ≠ 2%nat →
   unpack2 (transpose_rows (Matrix 2%positive 2 2)) = inl ValueError) ∧
  (mcols (Matrix 2%positive 2 2) = 2%nat →
   ∃ y z ys zs,
     unpack2 (transpose_rows (Matrix 2%positive 2 2)) = inr (y, z) ∧
     vbase y = 2%positive ∧ vbase z = 2%positive ∧
     floats_of nb_store y = Some ys ∧ floats_of nb_store z = Some zs ∧
     length ys = 2%nat ∧ length zs = 2%nat ∧
     ∀ i, (i < 2)%nat →
          ys !! i = getitem2 nb_store (Matrix 2%positive 2 2) i 0 ∧
          zs !! i = getitem2 nb_store (Matrix 2%positive 2 2) i 1).
Proof.
  apply (unpack_transpose_columns nb_store (Matrix 2%positive 2 2)
           [1; 0.5; -1.5; 2]%float);
    vm_compute; reflexivity.
Defined.

(** The views of the set-up above are those the input cell makes. *)
Example nb_views_from_transpose :
  unpack2 (transpose_rows (Matrix 2%positive 2 2)) = inr (nb_y, nb_z).
Proof. reflexivity. Qed.
